(** * gen-interface-mock: the mock generator of generator/mock.go

  A shallow embedding of [generator/mock.go].  The generator builds a
  jennifer syntax tree (package [jen]) out of an interface description
  (package [go-astra/types]) and hands it to jennifer's printer.  The
  tree is embedded as an inductive type, the builder calls as functions
  on it, and the packages the generator imports ([fmt], [encoding/json],
  [strcase], [gen/pkg], jennifer's printer) as the fields of one
  interface, [Imports]. *)

From Stdlib Require Import String Ascii List ZArith Lia Bool.
From Stdlib Require Import DecimalString DecimalPos DecimalZ FinFun.
Import ListNotations.

Set Implicit Arguments.

Open Scope string_scope.
Open Scope list_scope.

(** Go's pipeline of method calls [x.f(a).g(b)] is written [x |> f a |> g b]. *)
Notation "x |> f" := (f x) (at level 45, left associativity, only parsing).

(** ** Operands of fmt.Sprintf: the generator passes strings and ints. *)
Inductive Value : Type :=
| VString (s : string)
| VInt (n : Z).

(** Decimal text of a Go int. *)
Definition itoa (n : Z) : string := NilZero.string_of_int (Z.to_int n).

(** ** The jennifer syntax tree *)
Module Jen.

Inductive GroupKind : Type :=
| GParams | GCall | GStruct | GBlock | GAssert | GIf | GReturn | GList.

(** A [Code] is a token, a nested [*Statement] or a bracketed group of
    items.  jennifer's [Statement] is [[]Code]. *)
#[warnings="-register-all"]
Inductive Code : Type :=
| Comment (text : string)
| Keyword (kw : string)
| Ident (name : string)
| Qualified (path name : string)
| Operator (op : string)
| Literal (v : Value)
| Newline
| Stmt (codes : list Code)
| Group (kind : GroupKind) (items : list Code).

Definition Statement : Type := list Code.

(** The items a [*Group] has collected so far. *)
Definition Items : Type := list Code.

(** The package-level builders [Id(..)], [Func()], ... start from a fresh
    statement; the methods of the same name extend their receiver. *)
Definition jen : Statement := [].

Definition tok (c : Code) (s : Statement) : Statement := s ++ [c].

Definition Id (name : string) : Statement -> Statement := tok (Ident name).
Definition Op (op : string) : Statement -> Statement := tok (Operator op).
Definition Lit (v : Value) : Statement -> Statement := tok (Literal v).
Definition Qual (path name : string) : Statement -> Statement :=
  tok (Qualified path name).
Definition Line : Statement -> Statement := tok Newline.
Definition Func : Statement -> Statement := tok (Keyword "func").
Definition Type_ : Statement -> Statement := tok (Keyword "type").
Definition Var : Statement -> Statement := tok (Keyword "var").
Definition Else : Statement -> Statement := tok (Keyword "else").
Definition Nil : Statement -> Statement := tok (Ident "nil").

(** [Add(code...)] appends its arguments as they are; a [*Statement]
    argument stays one nested [Code]. *)
Definition Add (code : list Code) (s : Statement) : Statement := s ++ code.

Definition Params (items : list Code) : Statement -> Statement :=
  tok (Group GParams items).
Definition Call (items : list Code) : Statement -> Statement :=
  tok (Group GCall items).
Definition Struct (items : list Code) : Statement -> Statement :=
  tok (Group GStruct items).
Definition Assert (typ : Code) : Statement -> Statement :=
  tok (Group GAssert [typ]).
Definition If (conditions : list Code) : Statement -> Statement :=
  tok (Group GIf conditions).
Definition List_ (items : list Code) : Statement -> Statement :=
  tok (Group GList items).

(** The [...Func] variants run a closure over an empty group. *)
Definition ParamsFunc (f : Items -> Items) : Statement -> Statement :=
  tok (Group GParams (f [])).
Definition BlockFunc (f : Items -> Items) : Statement -> Statement :=
  tok (Group GBlock (f [])).
Definition ReturnFunc (f : Items -> Items) : Statement -> Statement :=
  tok (Group GReturn (f [])).

(** A builder method of [*Group] ([g.Id(..)], [g.If(..)], [g.Add(..)])
    creates a statement, stores the pointer in the group and returns it.
    The calls chained on that pointer extend the stored statement, so the
    group ends up holding the whole chain: [g <+ chain]. *)
Definition gadd (g : Items) (s : Statement) : Items := g ++ [Stmt s].

(** [*File] embeds [*Group]; [NewFilePath] records the package path. *)
Record File : Type := mkFile {
  path : string;
  comments : list string;
  items : Items
}.

Definition NewFilePath (packagePath : string) : File :=
  {| path := packagePath; comments := []; items := [] |}.

Definition fadd (f : File) (s : Statement) : File :=
  {| path := f.(path); comments := f.(comments); items := gadd f.(items) s |}.

End Jen.
Import Jen.

Notation "g <+ s" := (gadd g s) (at level 50, left associativity).

(** ** Go's [for i, x := range xs] with an accumulated state *)
Fixpoint forRangeFrom {A S : Type} (i : nat) (xs : list A)
  (body : nat -> A -> S -> S) (s : S) : S :=
  match xs with
  | [] => s
  | x :: rest => forRangeFrom (Datatypes.S i) rest body (body i x s)
  end.

Definition forRange {A S : Type} (xs : list A) (body : nat -> A -> S -> S)
  (s : S) : S :=
  forRangeFrom 0 xs body s.

(** ** The descriptors of go-astra/types, over the type of type descriptions *)
Module VariableT.
Record t (T : Type) : Type := mk { Name : string; Type_ : T }.
End VariableT.

Module FunctionT.
Record t (T : Type) : Type := mk {
  Name : string;
  Args : list (VariableT.t T);
  Results : list (VariableT.t T)
}.
End FunctionT.

Module InterfaceT.
Record t (T : Type) : Type := mk {
  Name : string;
  Methods : list (FunctionT.t T)
}.
End InterfaceT.

Module FileT.
Record t (T : Type) : Type := mk { Interfaces : list (InterfaceT.t T) }.
End FileT.

(** ** generator/mock.go *)

Definition pluginRepoURL : string := "github.com/cv21/gen-generator-mock".
Definition pluginVersion : string := "1.0.0".
Definition mockPackage : string := "github.com/stretchr/testify/mock".

Record generatorParams : Type := mkParams {
  InterfaceName : string;
  OutPathTemplate : string;
  SourcePackagePath : string;
  TargetPackagePath : string;
  MockStructNameTemplate : string
}.

(** The receiver: a generator holds a logger and nothing else. *)
Record mockGenerator (Logger : Type) : Type := { logger : Logger }.

(** pkg.GenerateParams, pkg.GenerateResultFile and pkg.GenerateResult. *)
Record GenerateParams (T : Type) : Type := {
  File_ : FileT.t T;
  Params_ : string
}.

Record GenerateResultFile : Type := { Path : string; Content : string }.

Record GenerateResult : Type := { Files : list GenerateResultFile }.

(** What a call of a Go function with a result and an error comes to:
    it returns a result, returns an error, or panics. *)
Inductive Outcome (R E : Type) : Type :=
| Returned (r : R)
| Failed (e : E)
| Panicked.
Arguments Returned {R E} r.
Arguments Failed {R E} e.
Arguments Panicked {R E}.

(** The imported packages.  [FindInterface] returns a pointer: [None] is
    the nil pointer.  [GoString f] is the text of fmt.Sprintf("%#v", f) for
    a jennifer file [f], which fmt obtains from the file's GoString method
    (a panic of that method is caught by fmt and reported in the text). *)
Class Imports : Type := {
  GoType : Type;
  error : Type;
  Logger : Type;
  Sprintf : string -> list Value -> string;
  Unmarshal : string -> error + generatorParams;
  ToSnake : string -> string;
  FindInterface : FileT.t GoType -> string -> option (InterfaceT.t GoType);
  TypeQual : string -> string -> GoType -> Statement;
  IsErrorType : GoType -> bool;
  IsNillableType : GoType -> bool;
  AddDefaultPackageComment : File -> string -> string -> File;
  GoString : File -> string
}.

Section Generator.
Context {I : Imports}.

(** jennifer's [Commentf] formats its text with fmt.Sprintf. *)
Definition Commentf (format : string) (a : list Value) : Statement -> Statement :=
  tok (Comment (Sprintf format a)).

Definition typeQual (params : generatorParams) (t : GoType) : Statement :=
  TypeQual params.(SourcePackagePath) params.(TargetPackagePath) t.

Definition buildMockStructName (template interfaceName : string) : string :=
  let template := if String.eqb template "" then "%sMock" else template in
  Sprintf template [VString interfaceName].

Definition generateType (mockStructName interfaceName : string) : Statement :=
  jen |> Commentf "%s is an autogenerated mock type for the %s interface."
           [VString mockStructName; VString interfaceName]
      |> Line
      |> Type_ |> Id mockStructName
      |> Struct [Stmt (jen |> Qual mockPackage "Mock")].

(** generateMethod.  The closures handed to ParamsFunc and BlockFunc are
    the [fun g => ...] below; [retNames] is the slice the loop over the
    results appends to. *)
Definition generateMethod (params : generatorParams)
    (interfaceName mockStructName : string) (method : FunctionT.t GoType)
    : Statement :=
  jen
  |> Commentf "%s provides a mock function for method %s of interface %s."
       [VString method.(FunctionT.Name); VString method.(FunctionT.Name);
        VString interfaceName]
  |> Line
  |> Func
  |> Params [Stmt (jen |> Id "_m" |> Id (Sprintf "*%s" [VString mockStructName]))]
  |> Id method.(FunctionT.Name)
  |> ParamsFunc (fun g =>
       forRange method.(FunctionT.Args) (fun _ a g =>
         g <+ (jen |> Id a.(VariableT.Name)
                   |> Add [Stmt (typeQual params a.(VariableT.Type_))])) g)
  |> ParamsFunc (fun g =>
       forRange method.(FunctionT.Results) (fun _ r g =>
         g <+ (jen |> Id r.(VariableT.Name)
                   |> Add [Stmt (typeQual params r.(VariableT.Type_))])) g)
  |> BlockFunc (fun g =>
       let g := g <+ (jen |> Id "ret" |> Op ":=" |> Id "_m.Called"
                          |> ParamsFunc (fun g =>
                               forRange method.(FunctionT.Args) (fun _ a g =>
                                 g <+ (jen |> Id a.(VariableT.Name))) g)
                          |> Line) in
       let '(g, retNames) :=
         forRange method.(FunctionT.Results) (fun i r '(g, retNames) =>
           let i := Z.of_nat i in
           let currentRetName := Sprintf "r%d" [VInt i] in
           let retNames := retNames ++ [currentRetName] in
           let g := g <+ (jen |> Var |> Id currentRetName
                              |> Add [Stmt (typeQual params r.(VariableT.Type_))]) in
           let g := g <+ (jen
             |> If [Stmt (jen
                      |> List_ [Stmt (jen |> Id "rf");
                                Stmt (jen |> Id "ok" |> Op ":=" |> Id "ret.Get"
                                          |> Call [Stmt (jen |> Lit (VInt i))])]
                      |> Assert (Stmt (jen
                           |> Func
                           |> ParamsFunc (fun g =>
                                forRange method.(FunctionT.Args) (fun _ a g =>
                                  g <+ (jen |> Add [Stmt (typeQual params a.(VariableT.Type_))])) g)
                           |> Add [Stmt (typeQual params r.(VariableT.Type_))])));
                    Stmt (jen |> Id "ok")]
             |> BlockFunc (fun g =>
                  g <+ (jen |> Id currentRetName |> Op "=" |> Id "rf"
                            |> ParamsFunc (fun g =>
                                 forRange method.(FunctionT.Args) (fun _ a g =>
                                   g <+ (jen |> Id a.(VariableT.Name))) g)))
             |> Else
             |> BlockFunc (fun g =>
                  if IsErrorType r.(VariableT.Type_) then
                    g <+ (jen |> Id currentRetName |> Op "=" |> Id "ret.Error"
                              |> Params [Stmt (jen |> Lit (VInt i))])
                  else if IsNillableType r.(VariableT.Type_) then
                    g <+ (jen
                      |> If [Stmt (jen |> Id "ret.Get"
                                       |> Params [Stmt (jen |> Lit (VInt i))]
                                       |> Op "!=" |> Nil)]
                      |> BlockFunc (fun g =>
                           g <+ (jen |> Add [Stmt (jen
                                   |> Id currentRetName |> Op "=" |> Id "ret.Get"
                                   |> Params [Stmt (jen |> Lit (VInt i))]
                                   |> Assert (Stmt (typeQual params r.(VariableT.Type_))))])))
                  else
                    g <+ (jen |> Id currentRetName |> Op "=" |> Id "ret.Get"
                              |> Params [Stmt (jen |> Lit (VInt i))]
                              |> Assert (Stmt (typeQual params r.(VariableT.Type_)))))
             |> Line) in
           (g, retNames)) (g, []) in
       g <+ (jen |> ReturnFunc (fun g =>
               forRange retNames (fun _ retName g =>
                 g <+ (jen |> Add [Stmt (jen |> Id retName)])) g))).

(** Generate.  [pkg.FindInterface] hands back a pointer that the body
    dereferences ([iface.Name]) without a nil check: on nil the call
    panics. *)
Definition Generate (m : mockGenerator Logger) (p : GenerateParams GoType)
    : Outcome GenerateResult error :=
  match Unmarshal p.(Params_) with
  | inl err => Failed err
  | inr params =>
    match FindInterface p.(File_) params.(InterfaceName) with
    | None => Panicked
    | Some iface =>
      let f := NewFilePath params.(TargetPackagePath) in
      let mockStructName :=
        buildMockStructName params.(MockStructNameTemplate) iface.(InterfaceT.Name) in
      let f := fadd f (jen |> Add [Stmt (generateType mockStructName iface.(InterfaceT.Name))]
                           |> Line) in
      let f := forRange iface.(InterfaceT.Methods) (fun _ method f =>
                 fadd f (jen |> Add [Stmt (generateMethod params iface.(InterfaceT.Name)
                                             mockStructName method)]
                             |> Line)) f in
      Returned {| Files := [
        {| Path := Sprintf params.(OutPathTemplate)
                     [VString (ToSnake iface.(InterfaceT.Name))];
           Content := GoString (AddDefaultPackageComment f pluginRepoURL pluginVersion) |}
      ] |}
    end
  end.

End Generator.

(** ** Reading a generated tree back *)

(** The block a function declaration ends with. *)
Definition bodyOf (decl : Statement) : option Items :=
  match last decl Newline with
  | Group GBlock body => Some body
  | _ => None
  end.

(** The parameter list and the result list of a method declaration. *)
Definition signatureOf (decl : Statement) : option (Items * Items) :=
  match decl with
  | [Comment _; Newline; Keyword _; Group GParams _; Ident _;
     Group GParams args; Group GParams results; Group GBlock _] =>
      Some (args, results)
  | _ => None
  end.

(** The three parts of an [if c { a } else { b }] item of a block. *)
Record IfElse : Type := {
  conditions : list Code;
  thenBlock : Items;
  elseBlock : Items
}.

Definition ifElseOf (item : Code) : option IfElse :=
  match item with
  | Stmt [Group GIf c; Group GBlock a; Keyword "else"; Group GBlock b; Newline] =>
      Some {| conditions := c; thenBlock := a; elseBlock := b |}
  | _ => None
  end.

(** Whether identifier [name] occurs anywhere in a tree. *)
Fixpoint mentions (name : string) (c : Code) : bool :=
  match c with
  | Ident n => String.eqb n name
  | Stmt codes => existsb (mentions name) codes
  | Group _ items => existsb (mentions name) items
  | _ => false
  end.

(** The names a parameter group declares: the identifier each item
    starts with. *)
Definition declaredNames (items : Items) : list string :=
  flat_map (fun c =>
    match c with
    | Stmt (Ident n :: _) => [n]
    | _ => []
    end) items.

(** The variables a block declares with [var]. *)
Definition varNames (body : Items) : list string :=
  flat_map (fun c =>
    match c with
    | Stmt (Keyword "var" :: Ident n :: _) => [n]
    | _ => []
    end) body.

(** The receiver of a method declaration: its name and its type. *)
Definition receiverOf (decl : Statement) : option (string * string) :=
  match decl with
  | [Comment _; Newline; Keyword "func";
     Group GParams [Stmt [Ident self; Ident type]]; Ident _;
     Group GParams _; Group GParams _; Group GBlock _] =>
      Some (self, type)
  | _ => None
  end.

(** The name a method declaration declares. *)
Definition methodNameOf (decl : Statement) : option string :=
  match decl with
  | [Comment _; Newline; Keyword "func"; Group GParams _; Ident name;
     Group GParams _; Group GParams _; Group GBlock _] =>
      Some name
  | _ => None
  end.

(** The name a type declaration declares. *)
Definition declaredTypeOf (decl : Statement) : option string :=
  match decl with
  | [Comment _; Newline; Keyword "type"; Ident name; Group GStruct _] => Some name
  | _ => None
  end.

(** The declaration inside an item of the file. *)
Definition declOf (item : Code) : option Statement :=
  match item with
  | Stmt [Stmt decl; Newline] => Some decl
  | _ => None
  end.

(** The fields of the struct a type declaration declares. *)
Definition embeddedOf (decl : Statement) : option (list Code) :=
  match decl with
  | [Comment _; Newline; Keyword "type"; Ident _; Group GStruct fields] => Some fields
  | _ => None
  end.

(** The names of the methods the items of a file declare, in order. *)
Definition methodNamesOf (items : Items) : list string :=
  flat_map (fun item =>
    match declOf item with
    | Some decl =>
        match methodNameOf decl with
        | Some name => [name]
        | None => []
        end
    | None => []
    end) items.

(** A format without any verb. *)
Fixpoint plain (s : string) : bool :=
  match s with
  | EmptyString => true
  | String c rest => negb (Ascii.eqb c "%") && plain rest
  end.

(** What the generator relies on from fmt.Sprintf: around plain text, the
    verb %s is replaced by its string operand and %d by the decimal text of
    its int operand. *)
Record SprintfLaws {I : Imports} : Prop := {
  verb_s : forall pre post s, plain pre = true -> plain post = true ->
    Sprintf (pre ++ "%s" ++ post)%string [VString s] = (pre ++ s ++ post)%string;
  verb_d : forall pre post n, plain pre = true -> plain post = true ->
    Sprintf (pre ++ "%d" ++ post)%string [VInt n] = (pre ++ itoa n ++ post)%string
}.
Arguments SprintfLaws : clear implicits.

(** ** A concrete set of imports

    The examples and the checks on concrete inputs run the generator
    against the definitions of this module.  They stand in for the imported
    packages: type descriptions, their rendering and their classification
    follow the specification, the others are small executable stand-ins. *)
Module Model.

Inductive Direction : Type := SendOnly | ReceiveOnly | Bidirectional.

(** Modelled from the spec: the type descriptions of go-astra ([types.Type])
    are not part of the sources; this is the closed variant of section 3. *)
#[warnings="-register-all"]
Inductive TypeDescriptor : Type :=
| Named (definingPackage identifier : string)
| Pointer (inner : TypeDescriptor)
| Slice (inner : TypeDescriptor)
| Array (length : Z) (inner : TypeDescriptor)
| Map (key value : TypeDescriptor)
| Channel (direction : Direction) (inner : TypeDescriptor)
| FuncT (params results : list TypeDescriptor)
| InterfaceT
| Variadic (inner : TypeDescriptor)
| Builtin (identifier : string).

(** Modelled from the spec: [pkg.TypeQual] is not part of the sources; the
    renderer of section 4.1. *)
Fixpoint render (sourcePackagePath targetPackagePath : string)
    (t : TypeDescriptor) : Statement :=
  let go := render sourcePackagePath targetPackagePath in
  match t with
  | Builtin identifier => [Ident identifier]
  | Named definingPackage identifier =>
      if String.eqb definingPackage targetPackagePath
      then [Ident identifier]
      else [Qualified definingPackage identifier]
  | Pointer inner => Operator "*" :: go inner
  | Slice inner => Operator "[]" :: go inner
  | Variadic inner => Operator "..." :: go inner
  | Channel SendOnly inner => Keyword "chan<-" :: go inner
  | Channel ReceiveOnly inner => Keyword "<-chan" :: go inner
  | Channel Bidirectional inner => Keyword "chan" :: go inner
  | Array length inner =>
      Operator "[" :: Literal (VInt length) :: Operator "]" :: go inner
  | Map key value =>
      Keyword "map" :: Operator "[" :: go key ++ Operator "]" :: go value
  | FuncT params results =>
      [Keyword "func";
       Group GParams (map (fun p => Stmt (go p)) params);
       Group GParams (map (fun r => Stmt (go r)) results)]
  | InterfaceT => [Ident "interface{}"]
  end.

(** Modelled from the spec: [pkg.IsErrorType] is not part of the sources;
    the error kind of section 4.2, the one well-known error type. *)
Definition isErrorKind (t : TypeDescriptor) : bool :=
  match t with
  | Builtin identifier => String.eqb identifier "error"
  | _ => false
  end.

(** Modelled from the spec: [pkg.IsNillableType] is not part of the
    sources; the nillable shapes of section 4.2. *)
Definition isNillableKind (t : TypeDescriptor) : bool :=
  match t with
  | Pointer _ | Slice _ | Map _ _ | Channel _ _ | InterfaceT | FuncT _ _ => true
  | _ => false
  end.

(** fmt.Sprintf on the verbs %s, %v, %d and %%, with fmt's texts for a
    verb that does not fit its operand, a missing operand and operands
    left over.  Flags, widths and the other verbs are not covered. *)
Definition typeName (v : Value) : string :=
  match v with VString _ => "string" | VInt _ => "int" end.

Definition valueText (v : Value) : string :=
  match v with VString s => s | VInt n => itoa n end.

Definition printArg (v : Value) (verb : ascii) : string :=
  match v, verb with
  | VString s, "s"%char | VString s, "v"%char => s
  | VInt n, "d"%char | VInt n, "v"%char => itoa n
  | _, _ => ("%!" ++ String verb ("(" ++ typeName v ++ "=" ++ valueText v ++ ")"))%string
  end.

Fixpoint extraText (a : list Value) : string :=
  match a with
  | [] => ""
  | [v] => (typeName v ++ "=" ++ valueText v)%string
  | v :: rest => (typeName v ++ "=" ++ valueText v ++ ", " ++ extraText rest)%string
  end.

Fixpoint sprintf (format : string) (a : list Value) : string :=
  match format with
  | EmptyString =>
      match a with
      | [] => ""
      | _ => ("%!(EXTRA " ++ extraText a ++ ")")%string
      end
  | String c rest =>
      if Ascii.eqb c "%" then
        match rest with
        | EmptyString => "%!(NOVERB)"
        | String verb rest' =>
            if Ascii.eqb verb "%" then String "%" (sprintf rest' a)
            else
              match a with
              | [] => ("%!" ++ String verb ("(MISSING)" ++ sprintf rest' []))%string
              | v :: a' => (printArg v verb ++ sprintf rest' a')%string
              end
        end
      else String c (sprintf rest a)
  end.

(** strcase.ToSnake on identifiers made of letters: a word starts where
    the case changes, words are joined by an underscore and lowered. *)
Definition isUpper (c : ascii) : bool :=
  (65 <=? nat_of_ascii c)%nat && (nat_of_ascii c <=? 90)%nat.

Definition isLower (c : ascii) : bool :=
  (97 <=? nat_of_ascii c)%nat && (nat_of_ascii c <=? 122)%nat.

Definition toLower (c : ascii) : ascii :=
  if isUpper c then ascii_of_nat (nat_of_ascii c + 32) else c.

Fixpoint snake (first afterDelimiter : bool) (s : string) : string :=
  match s with
  | EmptyString => ""
  | String v rest =>
      let nextCaseIsChanged :=
        match rest with
        | String next _ =>
            (isUpper v && isLower next) || (isLower v && isUpper next)
        | EmptyString => false
        end in
      if negb first && negb afterDelimiter && nextCaseIsChanged then
        if isUpper v
        then String "_" (String (toLower v) (snake false false rest))
        else String v (String "_" (snake false true rest))
      else if Ascii.eqb v " " || Ascii.eqb v "_" || Ascii.eqb v "-" then
        String "_" (snake false true rest)
      else String (toLower v) (snake false false rest)
  end.

Definition toSnake (s : string) : string := snake true false s.

(** pkg.FindInterface: the first interface of the file with the name, or
    the nil pointer. *)
Definition findInterface (f : FileT.t TypeDescriptor) (name : string)
    : option (InterfaceT.t TypeDescriptor) :=
  find (fun i => String.eqb i.(InterfaceT.Name) name) f.(FileT.Interfaces).

(** encoding/json on the blobs the generator is given: one flat object
    whose members are strings without escapes, under the field tags of
    [generatorParams].  [marshal] writes such a blob, [unmarshal] reads
    it; a member with another name is skipped, a missing one leaves the
    field empty. *)
Definition quote : ascii := ascii_of_nat 34.

Definition quoted (s : string) : string := String quote (s ++ String quote "")%string.

Definition member (name value : string) : string :=
  (quoted name ++ ":" ++ quoted value)%string.

Definition marshal (p : generatorParams) : string :=
  ("{" ++ member "interface_name" p.(InterfaceName)
   ++ "," ++ member "out_path_template" p.(OutPathTemplate)
   ++ "," ++ member "source_package_path" p.(SourcePackagePath)
   ++ "," ++ member "target_package_path" p.(TargetPackagePath)
   ++ "," ++ member "mock_struct_name_template" p.(MockStructNameTemplate)
   ++ "}")%string.

Inductive Scan : Type :=
| AtStart
| AtNameOrEnd
| AtName
| InName (name : string)
| AtColon (name : string)
| AtValue (name : string)
| InValue (name value : string)
| AfterValue
| AtEnd.

Definition snoc (s : string) (c : ascii) : string := (s ++ String c "")%string.

Fixpoint scan (st : Scan) (members : list (string * string)) (s : string)
    : option (list (string * string)) :=
  match s with
  | EmptyString => match st with AtEnd => Some members | _ => None end
  | String c rest =>
      match st with
      | AtStart =>
          if Ascii.eqb c "{" then scan AtNameOrEnd members rest else None
      | AtNameOrEnd =>
          if Ascii.eqb c quote then scan (InName "") members rest
          else if Ascii.eqb c "}" then scan AtEnd members rest else None
      | AtName =>
          if Ascii.eqb c quote then scan (InName "") members rest else None
      | InName name =>
          if Ascii.eqb c quote then scan (AtColon name) members rest
          else scan (InName (snoc name c)) members rest
      | AtColon name =>
          if Ascii.eqb c ":" then scan (AtValue name) members rest else None
      | AtValue name =>
          if Ascii.eqb c quote then scan (InValue name "") members rest else None
      | InValue name value =>
          if Ascii.eqb c quote
          then scan AfterValue (members ++ [(name, value)]) rest
          else scan (InValue name (snoc value c)) members rest
      | AfterValue =>
          if Ascii.eqb c "," then scan AtName members rest
          else if Ascii.eqb c "}" then scan AtEnd members rest else None
      | AtEnd => None
      end
  end.

Definition setField (p : generatorParams) (m : string * string) : generatorParams :=
  let (name, value) := m in
  if String.eqb name "interface_name" then
    mkParams value p.(OutPathTemplate) p.(SourcePackagePath)
             p.(TargetPackagePath) p.(MockStructNameTemplate)
  else if String.eqb name "out_path_template" then
    mkParams p.(InterfaceName) value p.(SourcePackagePath)
             p.(TargetPackagePath) p.(MockStructNameTemplate)
  else if String.eqb name "source_package_path" then
    mkParams p.(InterfaceName) p.(OutPathTemplate) value
             p.(TargetPackagePath) p.(MockStructNameTemplate)
  else if String.eqb name "target_package_path" then
    mkParams p.(InterfaceName) p.(OutPathTemplate) p.(SourcePackagePath)
             value p.(MockStructNameTemplate)
  else if String.eqb name "mock_struct_name_template" then
    mkParams p.(InterfaceName) p.(OutPathTemplate) p.(SourcePackagePath)
             p.(TargetPackagePath) value
  else p.

Definition unmarshal (blob : string) : string + generatorParams :=
  match scan AtStart [] blob with
  | Some members => inr (fold_left setField members (mkParams "" "" "" "" ""))
  | None => inl "invalid character"
  end.

(** A plain printer for the tree: the tokens of a statement separated by
    blanks, the items of a group between its brackets.  It stands in for jennifer's printer and
    the formatter behind it. *)
Definition brackets (k : GroupKind) : string * string * string :=
  match k with
  | GParams | GCall => ("(", ", ", ")")
  | GStruct => ("struct {" ++ String (ascii_of_nat 10) "",
                String (ascii_of_nat 10) "",
                String (ascii_of_nat 10) "}")%string
  | GBlock => ("{" ++ String (ascii_of_nat 10) "",
               String (ascii_of_nat 10) "",
               String (ascii_of_nat 10) "}")%string
  | GAssert => (".(", "", ")")
  | GIf => ("if ", "; ", " ")
  | GReturn => ("return ", ", ", "")
  | GList => ("", ", ", "")
  end.

Fixpoint print (c : Code) : string :=
  match c with
  | Comment text => ("// " ++ text)%string
  | Keyword kw => kw
  | Ident name => name
  | Qualified path name => (path ++ "." ++ name)%string
  | Operator op => op
  | Literal v => valueText v
  | Newline => String (ascii_of_nat 10) ""
  | Stmt codes => String.concat " " (map print codes)
  | Group k items =>
      let '(opening, separator, closing) := brackets k in
      (opening ++ String.concat separator (map print items) ++ closing)%string
  end.

Definition addDefaultPackageComment (f : File) (repoURL version : string) : File :=
  {| path := f.(path);
     comments := f.(comments) ++ [(repoURL ++ " " ++ version)%string];
     items := f.(items) |}.

Definition goString (f : File) : string :=
  (String.concat "" (map (fun c => "// " ++ c ++ String (ascii_of_nat 10) "") f.(comments))
   ++ "package " ++ f.(path) ++ String (ascii_of_nat 10) ""
   ++ String.concat "" (map print f.(items)))%string.

Definition imports : Imports := {|
  GoType := TypeDescriptor;
  error := string;
  Logger := string;
  Sprintf := sprintf;
  Unmarshal := unmarshal;
  ToSnake := toSnake;
  FindInterface := findInterface;
  TypeQual := render;
  IsErrorType := isErrorKind;
  IsNillableType := isNillableKind;
  AddDefaultPackageComment := addDefaultPackageComment;
  GoString := goString
|}.

(** The interface of the examples: StringService with the one method
    Concat(a string, b string) string. *)
Definition Concat : FunctionT.t TypeDescriptor :=
  FunctionT.mk "Concat"
    [VariableT.mk "a" (Builtin "string"); VariableT.mk "b" (Builtin "string")]
    [VariableT.mk "" (Builtin "string")].

Definition StringService : InterfaceT.t TypeDescriptor :=
  InterfaceT.mk "StringService" [Concat].

Definition stringsvc : FileT.t TypeDescriptor := FileT.mk [StringService].

Definition stringsvcParams : generatorParams :=
  {| InterfaceName := "StringService";
     OutPathTemplate := "./generated/%s_mock.go";
     SourcePackagePath := "stringsvc";
     TargetPackagePath := "stringsvc";
     MockStructNameTemplate := "" |}.

Definition theGenerator : mockGenerator string := {| logger := "mock" |}.

Definition anotherGenerator : mockGenerator string := {| logger := "trace" |}.

(** Parameters that name an interface the file stringsvc does not have. *)
Definition missingParams : generatorParams :=
  {| InterfaceName := "Missing";
     OutPathTemplate := "./generated/%s_mock.go";
     SourcePackagePath := "stringsvc";
     TargetPackagePath := "stringsvc";
     MockStructNameTemplate := "" |}.

(** Find(key string), returning a pointer to users.User and an error: a
    nillable result and an error result. *)
Definition Find : FunctionT.t TypeDescriptor :=
  FunctionT.mk "Find"
    [VariableT.mk "key" (Builtin "string")]
    [VariableT.mk "user" (Pointer (Named "users" "User"));
     VariableT.mk "err" (Builtin "error")].

(** Trim(r0 string) string: an argument named like an extraction variable. *)
Definition Trim : FunctionT.t TypeDescriptor :=
  FunctionT.mk "Trim"
    [VariableT.mk "r0" (Builtin "string")]
    [VariableT.mk "" (Builtin "string")].

(** Reset(): no results. *)
Definition Reset : FunctionT.t TypeDescriptor := FunctionT.mk "Reset" [] [].

(** Snapshot(), returning a slice of bytes, an array of four ints and a
    time.Time: a nillable result and two that are not. *)
Definition Snapshot : FunctionT.t TypeDescriptor :=
  FunctionT.mk "Snapshot" []
    [VariableT.mk "data" (Slice (Builtin "byte"));
     VariableT.mk "sizes" (Array 4 (Builtin "int"));
     VariableT.mk "at" (Named "time" "Time")].

(** An interface whose methods are neither sorted nor distinct. *)
Definition Journal : InterfaceT.t TypeDescriptor :=
  InterfaceT.mk "Journal" [Reset; Concat; Find; Concat].

Definition journal : FileT.t TypeDescriptor := FileT.mk [StringService; Journal].

Definition journalParams : generatorParams :=
  {| InterfaceName := "Journal";
     OutPathTemplate := "./generated/%s_mock.go";
     SourcePackagePath := "journal";
     TargetPackagePath := "journal";
     MockStructNameTemplate := "" |}.

(** The imports with the type descriptions and the classification of the
    specification, over any fmt.Sprintf and any renderer of types. *)
Definition importsOver (sprintf_ : string -> list Value -> string)
    (render_ : string -> string -> TypeDescriptor -> Statement) : Imports := {|
  GoType := TypeDescriptor;
  error := string;
  Logger := string;
  Sprintf := sprintf_;
  Unmarshal := unmarshal;
  ToSnake := toSnake;
  FindInterface := findInterface;
  TypeQual := render_;
  IsErrorType := isErrorKind;
  IsNillableType := isNillableKind;
  AddDefaultPackageComment := addDefaultPackageComment;
  GoString := goString
|}.

End Model.

#[global] Existing Instance Model.imports.


(** ** The Go text the generated trees stand for

    Each definition below is the tree of the statement quoted in its
    comment; the theorems compare what generateMethod builds with them. *)
Section Expected.
Context {I : Imports}.

(** The extraction variable of result [i]: r0, r1, ... *)
Definition retName (i : nat) : string := Sprintf "r%d" [VInt (Z.of_nat i)].

(** [a, b, ...]: the arguments of the call, by name. *)
Definition argumentNames (method : FunctionT.t GoType) : Items :=
  map (fun a => Stmt [Ident a.(VariableT.Name)]) method.(FunctionT.Args).

(** [func(A, B, ...) R]: the function type with the method's parameter
    types and the one result type [R]. *)
Definition overrideType (params : generatorParams) (method : FunctionT.t GoType)
    (r : VariableT.t GoType) : Statement :=
  [Keyword "func";
   Group GParams (map (fun a => Stmt [Stmt (typeQual params a.(VariableT.Type_))])
                      method.(FunctionT.Args));
   Stmt (typeQual params r.(VariableT.Type_))].

(** [ret.Get(i)]: the generic value slot of result [i]. *)
Definition valueSlot (i : nat) (bracket : GroupKind) : Statement :=
  [Ident "ret.Get"; Group bracket [Stmt [Literal (VInt (Z.of_nat i))]]].

(** [rf, ok := ret.Get(i).(func(A, B, ...) R); ok] *)
Definition overrideCheck (params : generatorParams) (method : FunctionT.t GoType)
    (i : nat) (r : VariableT.t GoType) : list Code :=
  [Stmt [Group GList [Stmt [Ident "rf"];
                      Stmt (Ident "ok" :: Operator ":=" :: valueSlot i GCall)];
         Group GAssert [Stmt (overrideType params method r)]];
   Stmt [Ident "ok"]].

(** [ri = rf(a, b, ...)] *)
Definition overrideCall (method : FunctionT.t GoType) (i : nat) : Items :=
  [Stmt [Ident (retName i); Operator "="; Ident "rf";
         Group GParams (argumentNames method)]].

(** [ri = ret.Error(i)] *)
Definition errorSlotRead (i : nat) : Statement :=
  [Ident (retName i); Operator "="; Ident "ret.Error";
   Group GParams [Stmt [Literal (VInt (Z.of_nat i))]]].

(** [ri = ret.Get(i).(R)] *)
Definition conversion (params : generatorParams) (i : nat)
    (r : VariableT.t GoType) : Statement :=
  Ident (retName i) :: Operator "=" :: valueSlot i GParams
  ++ [Group GAssert [Stmt (typeQual params r.(VariableT.Type_))]].

(** [if ret.Get(i) != nil { ri = ret.Get(i).(R) }] *)
Definition guardedConversion (params : generatorParams) (i : nat)
    (r : VariableT.t GoType) : Statement :=
  [Group GIf [Stmt (valueSlot i GParams ++ [Operator "!="; Ident "nil"])];
   Group GBlock [Stmt [Stmt (conversion params i r)]]].

(** The extraction the classification of the result type selects. *)
Definition classifiedExtraction (params : generatorParams) (i : nat)
    (r : VariableT.t GoType) : Items :=
  if IsErrorType r.(VariableT.Type_) then [Stmt (errorSlotRead i)]
  else if IsNillableType r.(VariableT.Type_) then [Stmt (guardedConversion params i r)]
  else [Stmt (conversion params i r)].

(** [var ri R] *)
Definition varDecl (params : generatorParams) (i : nat)
    (r : VariableT.t GoType) : Code :=
  Stmt [Keyword "var"; Ident (retName i); Stmt (typeQual params r.(VariableT.Type_))].

(** [if <override check> { <override call> } else { <extraction> }] *)
Definition resultItem (params : generatorParams) (method : FunctionT.t GoType)
    (i : nat) (r : VariableT.t GoType) : Code :=
  Stmt [Group GIf (overrideCheck params method i r);
        Group GBlock (overrideCall method i);
        Keyword "else";
        Group GBlock (classifiedExtraction params i r);
        Newline].

(** The two items per result, for the results from position [i] on. *)
Fixpoint resultItems (params : generatorParams) (method : FunctionT.t GoType)
    (i : nat) (rs : list (VariableT.t GoType)) : Items :=
  match rs with
  | [] => []
  | r :: rest =>
      varDecl params i r :: resultItem params method i r
      :: resultItems params method (S i) rest
  end.

(** [ret := _m.Called(a, b, ...)] *)
Definition recordCall (method : FunctionT.t GoType) : Code :=
  Stmt [Ident "ret"; Operator ":="; Ident "_m.Called";
        Group GParams (argumentNames method); Newline].

(** [return r0, r1, ...] over the given names. *)
Definition returnOf (names : list string) : Code :=
  Stmt [Group GReturn (map (fun name => Stmt [Stmt [Ident name]]) names)].

(** The item Generate adds to the file for a declaration. *)
Definition fileItem (decl : Statement) : Code := Stmt [Stmt decl; Newline].

(** No name declared in the parameter list of the generated method is
    also declared with [var] in its body. *)
Definition NoCollision (params : generatorParams)
    (interfaceName mockStructName : string) (method : FunctionT.t GoType) : Prop :=
  forall args results body,
    signatureOf (generateMethod params interfaceName mockStructName method)
      = Some (args, results) ->
    bodyOf (generateMethod params interfaceName mockStructName method) = Some body ->
    forall name, In name (declaredNames args) -> ~ In name (varNames body).

End Expected.

(** ** Loops as maps *)

Lemma forRangeFrom_gadd {A : Type} (h : A -> Statement) (xs : list A) :
  forall (i : nat) (g : Items),
    forRangeFrom i xs (fun _ x g => g ++ [Stmt (h x)]) g
    = g ++ map (fun x => Stmt (h x)) xs.
Proof.
  induction xs as [|x xs IH]; intros i g; simpl.
  - now rewrite app_nil_r.
  - rewrite IH. now rewrite <- app_assoc.
Qed.

Lemma forRange_gadd {A : Type} (h : A -> Statement) (xs : list A) (g : Items) :
  forRange xs (fun _ x g => g <+ h x) g = g ++ map (fun x => Stmt (h x)) xs.
Proof. apply (forRangeFrom_gadd h). Qed.

Lemma forRangeFrom_fadd {A : Type} (h : A -> Statement) (xs : list A) :
  forall (i : nat) (f : File),
    forRangeFrom i xs (fun _ x f => fadd f (h x)) f
    = {| path := f.(path); comments := f.(comments);
         items := f.(items) ++ map (fun x => Stmt (h x)) xs |}.
Proof.
  induction xs as [|x xs IH]; intros i f; simpl.
  - rewrite app_nil_r. now destruct f.
  - rewrite IH. unfold fadd, gadd. simpl. now rewrite <- app_assoc.
Qed.

Section Body.
Context {I : Imports}.

Lemma bodyOf_BlockFunc (s : Statement) (f : Items -> Items) :
  bodyOf (s |> BlockFunc f) = Some (f []).
Proof. unfold bodyOf, BlockFunc, tok. now rewrite last_last. Qed.

(** The loop over the results adds the two items of each result and its
    name to [retNames]. *)
Lemma results_loop (params : generatorParams) (method : FunctionT.t GoType)
    (loop : nat -> VariableT.t GoType -> Items * list string -> Items * list string)
    (Hloop : forall i r g names,
        loop i r (g, names)
        = (g ++ [varDecl params i r; resultItem params method i r],
           names ++ [retName i]))
    (rs : list (VariableT.t GoType)) :
  forall i g names,
    forRangeFrom i rs loop (g, names)
    = (g ++ resultItems params method i rs,
       names ++ map retName (seq i (length rs))).
Proof.
  induction rs as [|r rs IH]; intros i g names; simpl.
  - now rewrite !app_nil_r.
  - rewrite Hloop, IH. now rewrite <- !app_assoc.
Qed.

(** The body of a generated method: the recorded call, two items per
    result, the return of the extraction variables. *)
Lemma generateMethod_body (params : generatorParams)
    (interfaceName mockStructName : string) (method : FunctionT.t GoType) :
  bodyOf (generateMethod params interfaceName mockStructName method)
  = Some (recordCall method
          :: resultItems params method 0 method.(FunctionT.Results)
          ++ [returnOf (map retName (seq 0 (length method.(FunctionT.Results))))]).
Proof.
  unfold generateMethod. rewrite bodyOf_BlockFunc.
  unfold forRange.
  erewrite (results_loop params method).
  - f_equal. unfold gadd. simpl app at 1. unfold recordCall, argumentNames.
    f_equal.
    + unfold ParamsFunc, Line, Id, Op, tok, jen. simpl.
      now rewrite (forRangeFrom_gadd (fun a => [Ident (VariableT.Name a)])).
    + f_equal. unfold returnOf, ReturnFunc, tok, jen, Add. simpl.
      now rewrite (forRangeFrom_gadd (fun name => [Stmt [Ident name]])).
  - intros i r g names. unfold gadd. rewrite <- app_assoc. simpl app.
    f_equal. f_equal. f_equal.
    unfold resultItem, overrideCheck, overrideCall, overrideType, valueSlot,
      classifiedExtraction, errorSlotRead, guardedConversion, conversion,
      valueSlot, argumentNames, retName.
    unfold If, BlockFunc, Else, Line, Assert, List_, Call, Params, ParamsFunc,
      Func, Id, Op, Lit, Nil, Add, tok, jen, gadd. simpl.
    rewrite (forRangeFrom_gadd (fun a => [Stmt (typeQual params (VariableT.Type_ a))])).
    rewrite (forRangeFrom_gadd (fun a => [Ident (VariableT.Name a)])).
    simpl.
    destruct (IsErrorType (VariableT.Type_ r)); [reflexivity|].
    destruct (IsNillableType (VariableT.Type_ r)); reflexivity.
Qed.

End Body.

(** ** The concrete imports satisfy the laws assumed of fmt.Sprintf *)

Lemma sprintf_plain (s : string) : plain s = true -> Model.sprintf s [] = s.
Proof.
  induction s as [|c s IH]; simpl; [reflexivity|].
  intros H. apply andb_prop in H. destruct H as [Hc Hs].
  destruct (Ascii.eqb c "%"); [discriminate|].
  now rewrite IH.
Qed.

Lemma sprintf_plain_app (pre rest : string) (a : list Value) :
  plain pre = true ->
  Model.sprintf (pre ++ rest)%string a = (pre ++ Model.sprintf rest a)%string.
Proof.
  induction pre as [|c pre IH]; simpl; [reflexivity|].
  intros H. apply andb_prop in H. destruct H as [Hc Hs].
  destruct (Ascii.eqb c "%"); [discriminate|].
  now rewrite IH.
Qed.

Lemma sprintf_laws : SprintfLaws Model.imports.
Proof.
  split; intros pre post x Hpre Hpost; simpl Sprintf;
    rewrite sprintf_plain_app by assumption; simpl;
    now rewrite sprintf_plain.
Qed.

(** ** Decimal names *)

Lemma to_int_proper (n : Z) :
  Z.to_int n <> Decimal.Pos Decimal.Nil /\ Z.to_int n <> Decimal.Neg Decimal.Nil.
Proof.
  destruct n as [|p|p]; simpl; split; try discriminate;
    intros [= H]; now apply (DecimalPos.Unsigned.to_uint_nonnil p).
Qed.

Lemma itoa_parse (n : Z) : NilZero.int_of_string (itoa n) = Some (Z.to_int n).
Proof.
  unfold itoa. destruct (to_int_proper n) as [Hpos Hneg].
  now apply NilZero.isi.
Qed.

Lemma itoa_inj (a b : Z) : itoa a = itoa b -> a = b.
Proof.
  intros H. apply DecimalZ.to_int_inj.
  assert (E : Some (Z.to_int a) = Some (Z.to_int b))
    by (rewrite <- !itoa_parse; now rewrite H).
  now injection E.
Qed.

Lemma append_empty (s : string) : (s ++ "")%string = s.
Proof. induction s as [|c s IH]; simpl; [reflexivity | now rewrite IH]. Qed.

Section Names.
Context {I : Imports} (laws : SprintfLaws I).

Lemma retName_decimal (i : nat) : retName i = ("r" ++ itoa (Z.of_nat i))%string.
Proof.
  unfold retName. change "r%d" with ("r" ++ "%d" ++ "")%string.
  rewrite (verb_d laws) by reflexivity. now rewrite append_empty.
Qed.

Lemma retName_inj (i j : nat) : retName i = retName j -> i = j.
Proof.
  rewrite !retName_decimal. intros [= H]. apply itoa_inj in H. lia.
Qed.

Lemma retName_not_value_slot (i : nat) : String.eqb (retName i) "ret.Get" = false.
Proof.
  apply String.eqb_neq. rewrite retName_decimal. intros [= H].
  pose proof (itoa_parse (Z.of_nat i)) as P. rewrite H in P. discriminate P.
Qed.

End Names.

(** ** Positions in a generated body *)
Section Positions.
Context {I : Imports}.
Variables (params : generatorParams) (method : FunctionT.t GoType).

Lemma nth_resultItems (tail : Items) (rs : list (VariableT.t GoType)) :
  forall (k j : nat) (r : VariableT.t GoType),
    nth_error rs k = Some r ->
    nth_error (resultItems params method j rs ++ tail) (2 * k)
      = Some (varDecl params (j + k) r)
    /\ nth_error (resultItems params method j rs ++ tail) (2 * k + 1)
      = Some (resultItem params method (j + k) r).
Proof.
  induction rs as [|r0 rs IH]; intros k j r Hk.
  - destruct k; discriminate.
  - destruct k as [|k].
    + injection Hk as ->. rewrite Nat.add_0_r. simpl. now split.
    + simpl in Hk. destruct (IH k (S j) r Hk) as [Hv Hr].
      replace (2 * S k) with (S (S (2 * k))) by lia.
      replace (j + S k) with (S j + k) by lia.
      simpl resultItems. simpl app. split; [exact Hv|].
      replace (S (S (2 * k)) + 1) with (S (S (2 * k + 1))) by lia.
      exact Hr.
Qed.

Lemma varNames_resultItems (rs : list (VariableT.t GoType)) :
  forall (j : nat) (tail : Items),
    varNames (resultItems params method j rs ++ tail)
    = map retName (seq j (length rs)) ++ varNames tail.
Proof.
  induction rs as [|r rs IH]; intros j tail; [reflexivity|].
  change (varNames (resultItems params method j (r :: rs) ++ tail))
    with (retName j :: varNames (resultItems params method (S j) rs ++ tail)).
  rewrite IH. reflexivity.
Qed.

(** The if/else item of result [i] and its three parts. *)
Lemma result_item_at (interfaceName mockStructName : string) (i : nat)
    (r : VariableT.t GoType) :
  nth_error method.(FunctionT.Results) i = Some r ->
  exists body item,
    bodyOf (generateMethod params interfaceName mockStructName method) = Some body
    /\ nth_error body (2 * i + 1) = Some (varDecl params i r)
    /\ nth_error body (2 * i + 2) = Some item
    /\ ifElseOf item = Some {| conditions := overrideCheck params method i r;
                              thenBlock := overrideCall method i;
                              elseBlock := classifiedExtraction params i r |}.
Proof.
  intros Hr. eexists. exists (resultItem params method i r).
  split; [apply generateMethod_body|].
  destruct (nth_resultItems
              [returnOf (map retName (seq 0 (length method.(FunctionT.Results))))]
              _ i 0 Hr) as [Hv Hi].
  repeat split.
  - replace (2 * i + 1) with (S (2 * i)) by lia. exact Hv.
  - replace (2 * i + 2) with (S (2 * i + 1)) by lia. exact Hi.
Qed.

End Positions.

(** ** The method synthesizer *)
Section MethodSynthesizer.
Context {I : Imports}.


(** C2: for a result of error kind (in particular the single result of a
    method that returns only an error), the extraction in the else branch
    is [ri = ret.Error(i)], the read of the typed error slot at the
    result's position, and [ret.Get] does not occur in it, whether or not
    the type also counts as nillable. *)
Theorem error_result_reads_error_slot (laws : SprintfLaws I)
    (params : generatorParams) (interfaceName mockStructName : string)
    (method : FunctionT.t GoType) (i : nat) (r : VariableT.t GoType) :
  nth_error method.(FunctionT.Results) i = Some r ->
  IsErrorType r.(VariableT.Type_) = true ->
  exists body item parts,
    bodyOf (generateMethod params interfaceName mockStructName method) = Some body
    /\ nth_error body (2 * i + 2) = Some item
    /\ ifElseOf item = Some parts
    /\ parts.(elseBlock)
       = [Stmt [Ident ("r" ++ itoa (Z.of_nat i)); Operator "="; Ident "ret.Error";
                Group GParams [Stmt [Literal (VInt (Z.of_nat i))]]]]
    /\ existsb (mentions "ret.Get") parts.(elseBlock) = false.
Proof.
  intros Hr He.
  destruct (result_item_at params method interfaceName mockStructName i Hr)
    as (body & item & Hb & _ & Hi & Hparts).
  eexists body, item, _. repeat split; try eassumption.
  - simpl. unfold classifiedExtraction. rewrite He. unfold errorSlotRead.
    now rewrite (retName_decimal laws).
  - simpl. unfold classifiedExtraction. rewrite He. unfold errorSlotRead.
    simpl. now rewrite (retName_not_value_slot laws).
Qed.

(** C10: when a method declares no results, the generated body is the
    recorded call [ret := _m.Called(a, b, ...)], with every argument in
    order, followed by a bare [return]; nothing else is emitted. *)
Theorem body_without_results
    (params : generatorParams) (interfaceName mockStructName : string)
    (method : FunctionT.t GoType) :
  method.(FunctionT.Results) = [] ->
  bodyOf (generateMethod params interfaceName mockStructName method)
  = Some [Stmt [Ident "ret"; Operator ":="; Ident "_m.Called";
                Group GParams (map (fun a => Stmt [Ident a.(VariableT.Name)])
                                   method.(FunctionT.Args));
                Newline];
          Stmt [Group GReturn []]].
Proof.
  intros Hnone. rewrite generateMethod_body, Hnone. reflexivity.
Qed.

End MethodSynthesizer.

(** An error result, alone. *)
Lemma error_result_reads_error_slot_witness :
  let method := FunctionT.mk "Close" [] [VariableT.mk "" (Model.Builtin "error")] in
  exists body item parts,
    bodyOf (generateMethod Model.stringsvcParams "Closer" "CloserMock" method) = Some body
    /\ nth_error body 2 = Some item
    /\ ifElseOf item = Some parts
    /\ parts.(elseBlock)
       = [Stmt [Ident "r0"; Operator "="; Ident "ret.Error";
                Group GParams [Stmt [Literal (VInt 0)]]]]
    /\ existsb (mentions "ret.Get") parts.(elseBlock) = false.
Proof.
  intros method.
  apply (@error_result_reads_error_slot Model.imports sprintf_laws
           Model.stringsvcParams "Closer" "CloserMock" method 0
           (VariableT.mk "" (Model.Builtin "error")));
    reflexivity.
Defined.


Lemma body_without_results_witness :
  bodyOf (generateMethod Model.stringsvcParams "Cache" "CacheMock" Model.Reset)
  = Some [Stmt [Ident "ret"; Operator ":="; Ident "_m.Called"; Group GParams [];
                Newline];
          Stmt [Group GReturn []]].
Proof.
  apply (@body_without_results Model.imports Model.stringsvcParams
           "Cache" "CacheMock" Model.Reset).
  reflexivity.
Defined.

(** ** Result naming *)
Section ResultNaming.
Context {I : Imports} (laws : SprintfLaws I).

Lemma signatureOf_generateMethod (params : generatorParams)
    (interfaceName mockStructName : string) (method : FunctionT.t GoType) :
  signatureOf (generateMethod params interfaceName mockStructName method)
  = Some (map (fun a => Stmt [Ident a.(VariableT.Name);
                              Stmt (typeQual params a.(VariableT.Type_))])
              method.(FunctionT.Args),
          map (fun r => Stmt [Ident r.(VariableT.Name);
                              Stmt (typeQual params r.(VariableT.Type_))])
              method.(FunctionT.Results)).
Proof.
  unfold generateMethod, Commentf, Line, Func, Params, Id, ParamsFunc, BlockFunc,
    tok, jen, forRange, gadd, Add.
  rewrite (forRangeFrom_gadd
             (fun a => [] ++ [Ident (VariableT.Name a)]
                       ++ [Stmt (typeQual params (VariableT.Type_ a))])
             (FunctionT.Args method)).
  rewrite (forRangeFrom_gadd
             (fun a => ([] ++ [Ident (VariableT.Name a)])
                       ++ [Stmt (typeQual params (VariableT.Type_ a))])
             (FunctionT.Results method)).
  reflexivity.
Qed.

Lemma declaredNames_map (h : VariableT.t GoType -> Statement)
    (vs : list (VariableT.t GoType)) :
  declaredNames (map (fun v => Stmt (Ident v.(VariableT.Name) :: h v)) vs)
  = map (@VariableT.Name GoType) vs.
Proof.
  induction vs as [|v vs IH]; [reflexivity|].
  simpl map.
  change (declaredNames (Stmt (Ident (VariableT.Name v) :: h v)
                         :: map (fun v => Stmt (Ident (VariableT.Name v) :: h v)) vs))
    with (VariableT.Name v
          :: declaredNames (map (fun v => Stmt (Ident (VariableT.Name v) :: h v)) vs)).
  now rewrite IH.
Qed.

Lemma varNames_body (params : generatorParams)
    (interfaceName mockStructName : string) (method : FunctionT.t GoType) (body : Items) :
  bodyOf (generateMethod params interfaceName mockStructName method) = Some body ->
  varNames body
  = map (fun i => ("r" ++ itoa (Z.of_nat i))%string)
        (seq 0 (length method.(FunctionT.Results))).
Proof.
  rewrite generateMethod_body. intros [= <-].
  change (varNames (recordCall method :: ?l)) with (varNames l).
  rewrite varNames_resultItems. simpl varNames. rewrite app_nil_r.
  apply map_ext. intros i. apply (retName_decimal laws).
Qed.

End ResultNaming.

Section ResultNamingClaim.
Context {I : Imports}.

(** C9 (as amended): the result list of the generated signature carries
    the names of the descriptor's results as they are; the variables
    declared in the body are r0, r1, ... by position, whatever those names
    are, and they are the names returned; an argument's name is among them
    exactly when the argument is itself named r<k> for a position k among
    the results, so the generated method is free of such a collision when no
    argument has such a name. *)
Theorem result_names_kept_extraction_variables_positional (laws : SprintfLaws I)
    (params : generatorParams) (interfaceName mockStructName : string)
    (method : FunctionT.t GoType) :
  let decl := generateMethod params interfaceName mockStructName method in
  let n := length method.(FunctionT.Results) in
  let positional := map (fun i => ("r" ++ itoa (Z.of_nat i))%string) (seq 0 n) in
  exists args results body,
    signatureOf decl = Some (args, results)
    /\ bodyOf decl = Some body
    /\ declaredNames args = map (@VariableT.Name GoType) method.(FunctionT.Args)
    /\ declaredNames results = map (@VariableT.Name GoType) method.(FunctionT.Results)
    /\ varNames body = positional
    /\ last body Newline = returnOf positional
    /\ (forall a, In a method.(FunctionT.Args) ->
          (In a.(VariableT.Name) (varNames body)
           <-> exists k, k < n /\ a.(VariableT.Name) = ("r" ++ itoa (Z.of_nat k))%string))
    /\ ((forall a k, In a method.(FunctionT.Args) -> k < n ->
           a.(VariableT.Name) <> ("r" ++ itoa (Z.of_nat k))%string) ->
        NoCollision params interfaceName mockStructName method).
Proof.
  intros decl n positional.
  pose proof (signatureOf_generateMethod params interfaceName mockStructName method)
    as Hsig.
  pose proof (generateMethod_body params interfaceName mockStructName method)
    as Hbody.
  pose proof (varNames_body laws Hbody) as Hvars.
  assert (Hin : forall name, In name positional
                  <-> exists k, k < n /\ name = ("r" ++ itoa (Z.of_nat k))%string).
  { intros name. unfold positional. rewrite in_map_iff. split.
    - intros (k & <- & Hk). apply in_seq in Hk. exists k. split; [lia | reflexivity].
    - intros (k & Hk & ->). exists k. split; [reflexivity | apply in_seq; lia]. }
  do 3 eexists. split; [exact Hsig|]. split; [exact Hbody|].
  split; [apply (declaredNames_map (fun a => [Stmt (typeQual params a.(VariableT.Type_))]))|].
  split; [apply (declaredNames_map (fun a => [Stmt (typeQual params a.(VariableT.Type_))]))|].
  split; [exact Hvars|].
  split.
  { rewrite app_comm_cons, last_last. f_equal. apply map_ext.
    intros i. apply (retName_decimal laws). }
  split.
  { intros a _. rewrite Hvars. apply Hin. }
  intros Hfree args results body Hs Hb name Hname Hvar.
  unfold decl in *. rewrite Hsig in Hs. injection Hs as <- <-.
  rewrite (declaredNames_map (fun a => [Stmt (typeQual params a.(VariableT.Type_))]))
    in Hname.
  apply in_map_iff in Hname. destruct Hname as (a & <- & Ha).
  rewrite (varNames_body laws Hb) in Hvar.
  apply Hin in Hvar. destruct Hvar as (k & Hk & Heq).
  exact (Hfree a k Ha Hk Heq).
Qed.

End ResultNamingClaim.

(** C9, as stated, fails: for Trim(r0 string) string the generated method
    declares r0 twice, as its parameter and as the extraction variable of
    its result. *)
Lemma extraction_variable_collides_with_argument :
  ~ NoCollision Model.stringsvcParams "StringService" "StringServiceMock" Model.Trim.
Proof.
  intros H.
  apply (H _ _ _
           (signatureOf_generateMethod (I := Model.imports) Model.stringsvcParams
              "StringService" "StringServiceMock" Model.Trim)
           (generateMethod_body (I := Model.imports) Model.stringsvcParams
              "StringService" "StringServiceMock" Model.Trim) "r0").
  - left. reflexivity.
  - left. reflexivity.
Qed.

Lemma result_names_kept_extraction_variables_positional_witness :
  exists args results body,
    signatureOf (generateMethod Model.stringsvcParams "Users" "UsersMock" Model.Find)
      = Some (args, results)
    /\ bodyOf (generateMethod Model.stringsvcParams "Users" "UsersMock" Model.Find)
       = Some body
    /\ declaredNames args = ["key"]
    /\ declaredNames results = ["user"; "err"]
    /\ varNames body = ["r0"; "r1"]
    /\ NoCollision Model.stringsvcParams "Users" "UsersMock" Model.Find.
Proof.
  destruct (@result_names_kept_extraction_variables_positional Model.imports
              sprintf_laws Model.stringsvcParams "Users" "UsersMock" Model.Find)
    as (args & results & body & Hs & Hb & Ha & Hr & Hv & _ & _ & Hfree).
  exists args, results, body. repeat split; try assumption.
  apply Hfree. intros a k [<- | []] Hk.
  destruct k as [|[|k]]; [discriminate | discriminate | simpl in Hk; lia].
Defined.

(** ** Generate *)

(** The stand-in for pkg.FindInterface returns the nil pointer when no
    interface of the file has the name. *)
Lemma findInterface_absent (f : FileT.t Model.TypeDescriptor) (name : string) :
  (forall i, In i f.(FileT.Interfaces) -> i.(InterfaceT.Name) <> name) ->
  Model.findInterface f name = None.
Proof.
  intros Habsent. unfold Model.findInterface.
  destruct (find _ _) as [i|] eqn:E; [|reflexivity].
  apply find_some in E. destruct E as [Hin Heq].
  apply String.eqb_eq in Heq. now destruct (Habsent i Hin).
Qed.

Section GenerateClaims.
Context {I : Imports}.

(** C4: what the code does when the named interface is absent.  The nil
    pointer FindInterface returns is dereferenced: Generate panics; it
    returns neither an error nor a result. *)
Theorem Generate_panics_when_interface_is_missing
    (m : mockGenerator Logger) (p : GenerateParams GoType) (params : generatorParams) :
  Unmarshal p.(Params_) = inr params ->
  FindInterface p.(File_) params.(InterfaceName) = None ->
  Generate m p = Panicked.
Proof.
  intros Hdecode Hnil. unfold Generate. now rewrite Hdecode, Hnil.
Qed.

(** Once the parameters decode, Generate has no error to return. *)
Lemma Generate_error_only_from_decoding
    (m : mockGenerator Logger) (p : GenerateParams GoType) (e : error) :
  Generate m p = Failed e -> Unmarshal p.(Params_) = inl e.
Proof.
  unfold Generate. destruct (Unmarshal _) as [e'|params].
  - now intros [= ->].
  - destruct (FindInterface _ _); discriminate.
Qed.

(** The file Generate hands to the printer. *)
Lemma Generate_returns (m : mockGenerator Logger) (p : GenerateParams GoType)
    (params : generatorParams) (iface : InterfaceT.t GoType) :
  Unmarshal p.(Params_) = inr params ->
  FindInterface p.(File_) params.(InterfaceName) = Some iface ->
  let name := buildMockStructName params.(MockStructNameTemplate)
                                  iface.(InterfaceT.Name) in
  Generate m p
  = Returned {| Files := [
      {| Path := Sprintf params.(OutPathTemplate)
                   [VString (ToSnake iface.(InterfaceT.Name))];
         Content := GoString (AddDefaultPackageComment
           {| path := params.(TargetPackagePath);
              comments := [];
              items := fileItem (generateType name iface.(InterfaceT.Name))
                       :: map (fun method =>
                                 fileItem (generateMethod params iface.(InterfaceT.Name)
                                                          name method))
                              iface.(InterfaceT.Methods) |}
           pluginRepoURL pluginVersion) |} ] |}.
Proof.
  intros Hdecode Hfound name. unfold Generate. rewrite Hdecode, Hfound.
  unfold forRange.
  rewrite (forRangeFrom_fadd
             (fun method =>
                jen |> Add [Stmt (generateMethod params iface.(InterfaceT.Name)
                                    name method)]
                    |> Line)).
  reflexivity.
Qed.

(** C7: the name of the mock type is the template formatted with the
    interface name, the empty template standing for "%sMock": a template
    with one %s around plain text yields that text around the name, the
    empty template yields the name followed by Mock. *)
Theorem buildMockStructName_formats_template (laws : SprintfLaws I) :
  (forall template interfaceName,
      buildMockStructName template interfaceName
      = Sprintf (if String.eqb template "" then "%sMock" else template)
                [VString interfaceName])
  /\ (forall interfaceName,
         buildMockStructName "" interfaceName = (interfaceName ++ "Mock")%string)
  /\ (forall pre post interfaceName,
         plain pre = true -> plain post = true ->
         buildMockStructName (pre ++ "%s" ++ post)%string interfaceName
         = (pre ++ interfaceName ++ post)%string)
  /\ buildMockStructName "" "StringService" = "StringServiceMock"
  /\ buildMockStructName "My%sDouble" "Foo" = "MyFooDouble".
Proof.
  assert (Hdefault : forall interfaceName,
             buildMockStructName "" interfaceName = (interfaceName ++ "Mock")%string).
  { intros interfaceName. unfold buildMockStructName. simpl String.eqb. cbv iota.
    apply (verb_s laws "" "Mock"); reflexivity. }
  assert (Hcustom : forall pre post interfaceName,
             plain pre = true -> plain post = true ->
             buildMockStructName (pre ++ "%s" ++ post)%string interfaceName
             = (pre ++ interfaceName ++ post)%string).
  { intros pre post interfaceName Hpre Hpost. unfold buildMockStructName.
    replace (String.eqb (pre ++ "%s" ++ post) "") with false
      by (now destruct pre).
    now apply (verb_s laws). }
  split; [reflexivity|]. split; [exact Hdefault|]. split; [exact Hcustom|].
  split; [apply Hdefault|].
  apply (Hcustom "My" "Double" "Foo"); reflexivity.
Qed.

(** C8: a successful Generate returns exactly one file, and its path is
    the output path template formatted with the snake case of the
    interface name; Generate succeeds whenever the parameters decode and
    the interface is found.  With the template ./generated/%s_mock.go and
    the interface StringService, whose snake case is string_service, the
    path is ./generated/string_service_mock.go. *)
Theorem Generate_one_file_at_formatted_path (laws : SprintfLaws I)
    (m : mockGenerator Logger) (p : GenerateParams GoType) :
  (forall result,
      Generate m p = Returned result ->
      exists params iface content,
        Unmarshal p.(Params_) = inr params
        /\ FindInterface p.(File_) params.(InterfaceName) = Some iface
        /\ result.(Files)
           = [{| Path := Sprintf params.(OutPathTemplate)
                           [VString (ToSnake iface.(InterfaceT.Name))];
                 Content := content |}])
  /\ (forall params iface,
         Unmarshal p.(Params_) = inr params ->
         FindInterface p.(File_) params.(InterfaceName) = Some iface ->
         exists content,
           Generate m p
           = Returned {| Files := [
               {| Path := Sprintf params.(OutPathTemplate)
                            [VString (ToSnake iface.(InterfaceT.Name))];
                  Content := content |}] |})
  /\ (forall params iface,
         Unmarshal p.(Params_) = inr params ->
         FindInterface p.(File_) params.(InterfaceName) = Some iface ->
         params.(OutPathTemplate) = "./generated/%s_mock.go" ->
         iface.(InterfaceT.Name) = "StringService" ->
         ToSnake "StringService" = "string_service" ->
         exists content,
           Generate m p
           = Returned {| Files := [
               {| Path := "./generated/string_service_mock.go";
                  Content := content |}] |}).
Proof.
  split; [|split].
  - intros result. unfold Generate.
    destruct (Unmarshal _) as [e|params] eqn:Hdecode; [discriminate|].
    destruct (FindInterface _ _) as [iface|] eqn:Hfound; [|discriminate].
    intros [= <-]. exists params, iface. eexists.
    repeat split; first [reflexivity | assumption].
  - intros params iface Hdecode Hfound. eexists.
    apply (Generate_returns m p Hdecode Hfound).
  - intros params iface Hdecode Hfound Htemplate Hname Hsnake. eexists.
    rewrite (Generate_returns m p Hdecode Hfound).
    rewrite Htemplate, Hname, Hsnake.
    change "./generated/%s_mock.go" with ("./generated/" ++ "%s" ++ "_mock.go")%string.
    rewrite (verb_s laws) by reflexivity. reflexivity.
Qed.

End GenerateClaims.

(** ** The claims on the StringService example *)

Lemma Generate_panics_when_interface_is_missing_witness :
  Model.findInterface Model.stringsvc "Missing" = None
  /\ Generate Model.theGenerator
       {| File_ := Model.stringsvc; Params_ := Model.marshal Model.missingParams |}
     = Panicked.
Proof.
  split.
  - apply findInterface_absent. intros i [<- | []]. discriminate.
  - apply (@Generate_panics_when_interface_is_missing Model.imports
             Model.theGenerator
             {| File_ := Model.stringsvc;
                Params_ := Model.marshal Model.missingParams |}
             Model.missingParams); reflexivity.
Defined.

Lemma buildMockStructName_formats_template_witness :
  buildMockStructName (I := Model.imports) "" "StringService" = "StringServiceMock"
  /\ buildMockStructName (I := Model.imports) "My%sDouble" "Foo" = "MyFooDouble".
Proof.
  destruct (@buildMockStructName_formats_template Model.imports sprintf_laws)
    as (_ & _ & _ & Hdefault & Hcustom).
  split; [exact Hdefault | exact Hcustom].
Defined.

Lemma Generate_one_file_at_formatted_path_witness :
  exists content,
    Generate Model.theGenerator
      {| File_ := Model.stringsvc; Params_ := Model.marshal Model.stringsvcParams |}
    = Returned {| Files := [
        {| Path := "./generated/string_service_mock.go"; Content := content |}] |}.
Proof.
  destruct (@Generate_one_file_at_formatted_path Model.imports sprintf_laws
              Model.theGenerator
              {| File_ := Model.stringsvc;
                 Params_ := Model.marshal Model.stringsvcParams |})
    as (_ & _ & Hexample).
  apply (Hexample Model.stringsvcParams Model.StringService); reflexivity.
Defined.

(** The method generated for Concat(a string, b string) string: the call is
    recorded with a and b, the stored value is tried as a
    func(string, string) string, and is otherwise converted to string
    without a guard. *)
Example Concat_body :
  bodyOf (generateMethod Model.stringsvcParams "StringService" "StringServiceMock"
                         Model.Concat)
  = Some [
      Stmt [Ident "ret"; Operator ":="; Ident "_m.Called";
            Group GParams [Stmt [Ident "a"]; Stmt [Ident "b"]]; Newline];
      Stmt [Keyword "var"; Ident "r0"; Stmt [Ident "string"]];
      Stmt [Group GIf [
              Stmt [Group GList [
                      Stmt [Ident "rf"];
                      Stmt [Ident "ok"; Operator ":="; Ident "ret.Get";
                            Group GCall [Stmt [Literal (VInt 0)]]]];
                    Group GAssert [
                      Stmt [Keyword "func";
                            Group GParams [Stmt [Stmt [Ident "string"]];
                                           Stmt [Stmt [Ident "string"]]];
                            Stmt [Ident "string"]]]];
              Stmt [Ident "ok"]];
            Group GBlock [
              Stmt [Ident "r0"; Operator "="; Ident "rf";
                    Group GParams [Stmt [Ident "a"]; Stmt [Ident "b"]]]];
            Keyword "else";
            Group GBlock [
              Stmt [Ident "r0"; Operator "="; Ident "ret.Get";
                    Group GParams [Stmt [Literal (VInt 0)]];
                    Group GAssert [Stmt [Ident "string"]]]];
            Newline];
      Stmt [Group GReturn [Stmt [Stmt [Ident "r0"]]]]].
Proof. reflexivity. Qed.

Example toSnake_StringService : Model.toSnake "StringService" = "string_service".
Proof. reflexivity. Qed.

Example unmarshal_marshal :
  Model.unmarshal (Model.marshal Model.stringsvcParams) = inr Model.stringsvcParams.
Proof. reflexivity. Qed.

(** ** Further properties of generateMethod *)

Lemma length_resultItems {I : Imports} (params : generatorParams)
    (method : FunctionT.t GoType) (rs : list (VariableT.t GoType)) :
  forall j, length (resultItems params method j rs) = 2 * length rs.
Proof.
  induction rs as [|r rs IH]; intros j; [reflexivity|].
  simpl resultItems. simpl length. rewrite IH. lia.
Qed.

Section MethodLayout.
Context {I : Imports}.

(** X2: the layout of a generated body.  With n results it has 2n + 2
    items: the recorded call comes first, before any extraction; the
    variable of result i is declared as [var ri R], with the rendering of
    the result's type, at position 2i + 1, right before the if/else that
    assigns it; the return of r0 ... r(n-1) comes last. *)
Theorem generateMethod_body_layout
    (params : generatorParams) (interfaceName mockStructName : string)
    (method : FunctionT.t GoType) :
  let n := length method.(FunctionT.Results) in
  exists body,
    bodyOf (generateMethod params interfaceName mockStructName method) = Some body
    /\ length body = 2 * n + 2
    /\ nth_error body 0
       = Some (Stmt [Ident "ret"; Operator ":="; Ident "_m.Called";
                     Group GParams (map (fun a => Stmt [Ident a.(VariableT.Name)])
                                        method.(FunctionT.Args));
                     Newline])
    /\ (forall i r,
          nth_error method.(FunctionT.Results) i = Some r ->
          nth_error body (2 * i + 1)
          = Some (Stmt [Keyword "var"; Ident (retName i);
                        Stmt (typeQual params r.(VariableT.Type_))]))
    /\ nth_error body (2 * n + 1)
       = Some (Stmt [Group GReturn
                       (map (fun i => Stmt [Stmt [Ident (retName i)]]) (seq 0 n))]).
Proof.
  intros n. eexists. split; [apply generateMethod_body|].
  split; [|split; [|split]].
  - simpl length. rewrite length_app, length_resultItems. simpl. fold n. lia.
  - reflexivity.
  - intros i r Hr.
    destruct (nth_resultItems params method
                [returnOf (map retName (seq 0 n))] _ i 0 Hr) as [Hv _].
    replace (2 * i + 1) with (S (2 * i)) by lia. exact Hv.
  - replace (2 * n + 1) with (S (2 * n)) by lia. simpl nth_error.
    rewrite nth_error_app2 by (rewrite length_resultItems; fold n; lia).
    rewrite length_resultItems. fold n. rewrite Nat.sub_diag. simpl.
    unfold returnOf. now rewrite map_map.
Qed.

(** X4: the parameter list and the result list of the generated signature
    mirror the descriptor: as many entries, in the same order, entry k
    being the k-th name followed by the rendering of the k-th type. *)
Theorem generateMethod_signature_mirrors_descriptor
    (params : generatorParams) (interfaceName mockStructName : string)
    (method : FunctionT.t GoType) :
  exists args results,
    signatureOf (generateMethod params interfaceName mockStructName method)
      = Some (args, results)
    /\ length args = length method.(FunctionT.Args)
    /\ length results = length method.(FunctionT.Results)
    /\ (forall k a,
          nth_error method.(FunctionT.Args) k = Some a ->
          nth_error args k
          = Some (Stmt [Ident a.(VariableT.Name);
                        Stmt (typeQual params a.(VariableT.Type_))]))
    /\ (forall k r,
          nth_error method.(FunctionT.Results) k = Some r ->
          nth_error results k
          = Some (Stmt [Ident r.(VariableT.Name);
                        Stmt (typeQual params r.(VariableT.Type_))])).
Proof.
  do 2 eexists. split; [apply signatureOf_generateMethod|].
  split; [apply length_map|]. split; [apply length_map|].
  split; intros k v Hk;
    apply (map_nth_error
             (fun v => Stmt [Ident v.(VariableT.Name);
                             Stmt (typeQual params v.(VariableT.Type_))]) _ _ Hk).
Qed.

(** X7: the function found by the override check is called with the very
    arguments the call was recorded with, name by name and in order, and
    their number is the number of parameter types of the function type the
    stored value is tested against. *)
Theorem override_call_passes_recorded_arguments
    (params : generatorParams) (interfaceName mockStructName : string)
    (method : FunctionT.t GoType) (i : nat) (r : VariableT.t GoType) :
  nth_error method.(FunctionT.Results) i = Some r ->
  exists body item parts passed paramTypes,
    bodyOf (generateMethod params interfaceName mockStructName method) = Some body
    /\ nth_error body 0
       = Some (Stmt [Ident "ret"; Operator ":="; Ident "_m.Called";
                     Group GParams passed; Newline])
    /\ nth_error body (2 * i + 2) = Some item
    /\ ifElseOf item = Some parts
    /\ parts.(thenBlock)
       = [Stmt [Ident (retName i); Operator "="; Ident "rf"; Group GParams passed]]
    /\ parts.(conditions)
       = [Stmt [Group GList [Stmt [Ident "rf"];
                             Stmt [Ident "ok"; Operator ":="; Ident "ret.Get";
                                   Group GCall [Stmt [Literal (VInt (Z.of_nat i))]]]];
                Group GAssert [Stmt [Keyword "func"; Group GParams paramTypes;
                                     Stmt (typeQual params r.(VariableT.Type_))]]];
          Stmt [Ident "ok"]]
    /\ passed = map (fun a => Stmt [Ident a.(VariableT.Name)]) method.(FunctionT.Args)
    /\ length paramTypes = length passed.
Proof.
  intros Hr.
  destruct (result_item_at params method interfaceName mockStructName i Hr)
    as (body & item & Hb & _ & Hi & Hparts).
  exists body, item. eexists. eexists. eexists.
  split; [exact Hb|].
  split; [rewrite generateMethod_body in Hb; injection Hb as <-; reflexivity|].
  split; [exact Hi|]. split; [exact Hparts|].
  split; [reflexivity|]. split; [reflexivity|]. split; [reflexivity|].
  unfold argumentNames. now rewrite !length_map.
Qed.

End MethodLayout.

Lemma override_call_passes_recorded_arguments_witness :
  exists body item parts (paramTypes : list Code),
    bodyOf (generateMethod Model.stringsvcParams "StringService" "StringServiceMock"
                           Model.Concat) = Some body
    /\ nth_error body 2 = Some item
    /\ ifElseOf item = Some parts
    /\ parts.(thenBlock)
       = [Stmt [Ident (retName 0); Operator "="; Ident "rf";
                Group GParams [Stmt [Ident "a"]; Stmt [Ident "b"]]]]
    /\ length paramTypes = 2.
Proof.
  destruct (@override_call_passes_recorded_arguments Model.imports
              Model.stringsvcParams "StringService" "StringServiceMock"
              Model.Concat 0 (VariableT.mk "" (Model.Builtin "string")) eq_refl)
    as (body & item & parts & passed & paramTypes
        & Hb & _ & Hi & Hp & Hthen & _ & Hpassed & Hlen).
  exists body, item, parts, paramTypes.
  rewrite Hpassed in Hthen, Hlen.
  split; [exact Hb|]. split; [exact Hi|]. split; [exact Hp|].
  split; [exact Hthen | exact Hlen].
Defined.

(** ** Names *)

Lemma length_append_string (a b : string) :
  String.length (a ++ b)%string = String.length a + String.length b.
Proof. induction a as [|c a IH]; simpl; [reflexivity | now rewrite IH]. Qed.

Lemma append_inv_head (pre a b : string) :
  (pre ++ a)%string = (pre ++ b)%string -> a = b.
Proof.
  induction pre as [|c pre IH]; simpl; [trivial|].
  intros [= H]. now apply IH.
Qed.

Lemma append_inv_tail (post a : string) :
  forall b, (a ++ post)%string = (b ++ post)%string -> a = b.
Proof.
  induction a as [|c a IH]; intros [|c' b]; simpl; intros H.
  - reflexivity.
  - apply (f_equal String.length) in H. simpl in H.
    rewrite length_append_string in H. lia.
  - apply (f_equal String.length) in H. simpl in H.
    rewrite length_append_string in H. lia.
  - injection H as -> H. f_equal. now apply IH.
Qed.

Section Naming.
Context {I : Imports} (laws : SprintfLaws I).

Lemma retName_not_error_slot (i : nat) : String.eqb (retName i) "ret.Error" = false.
Proof.
  apply String.eqb_neq. rewrite (retName_decimal laws). intros [= H].
  pose proof (itoa_parse (Z.of_nat i)) as P. rewrite H in P. discriminate P.
Qed.

Lemma receiver_type (mockStructName : string) :
  Sprintf "*%s" [VString mockStructName] = ("*" ++ mockStructName)%string.
Proof.
  change "*%s" with ("*" ++ "%s" ++ "")%string.
  rewrite (verb_s laws) by reflexivity. now rewrite append_empty.
Qed.

(** X3: the extraction variables of a generated body are pairwise
    distinct and there is one per result: no two results share a
    variable. *)
Theorem extraction_variables_distinct
    (params : generatorParams) (interfaceName mockStructName : string)
    (method : FunctionT.t GoType) :
  exists body,
    bodyOf (generateMethod params interfaceName mockStructName method) = Some body
    /\ NoDup (varNames body)
    /\ length (varNames body) = length method.(FunctionT.Results).
Proof.
  eexists. split; [apply generateMethod_body|].
  rewrite (varNames_body laws
             (generateMethod_body params interfaceName mockStructName method)).
  split.
  - apply Injective_map_NoDup; [|apply seq_NoDup].
    intros a b [= H]. apply itoa_inj in H. lia.
  - now rewrite length_map, length_seq.
Qed.

Lemma receiver_and_name_of_generated_method
    (params : generatorParams) (interfaceName mockStructName : string)
    (method : FunctionT.t GoType) :
  receiverOf (generateMethod params interfaceName mockStructName method)
  = Some ("_m", ("*" ++ mockStructName)%string)
  /\ methodNameOf (generateMethod params interfaceName mockStructName method)
     = Some method.(FunctionT.Name).
Proof.
  unfold generateMethod, Commentf, Line, Func, Params, Id, ParamsFunc, BlockFunc,
    tok, jen.
  rewrite receiver_type. split; reflexivity.
Qed.

(** X5: a generated method is declared on a receiver named _m whose type
    is the pointer to the mock type, under the method's own name. *)
Theorem generateMethod_receiver_and_name
    (params : generatorParams) (interfaceName mockStructName : string)
    (method : FunctionT.t GoType) :
  receiverOf (generateMethod params interfaceName mockStructName method)
  = Some ("_m", ("*" ++ mockStructName)%string)
  /\ methodNameOf (generateMethod params interfaceName mockStructName method)
     = Some method.(FunctionT.Name).
Proof.
  unfold generateMethod, Commentf, Line, Func, Params, Id, ParamsFunc, BlockFunc,
    tok, jen.
  rewrite receiver_type. split; reflexivity.
Qed.

(** X10: under a template with one %s around plain text, and under the
    empty template, two interfaces get the same mock type name only when
    they have the same name; under the empty template the mock type is
    never named like the interface itself. *)
Theorem buildMockStructName_injective :
  (forall pre post a b,
      plain pre = true -> plain post = true ->
      buildMockStructName (pre ++ "%s" ++ post)%string a
      = buildMockStructName (pre ++ "%s" ++ post)%string b ->
      a = b)
  /\ (forall a b, buildMockStructName "" a = buildMockStructName "" b -> a = b)
  /\ (forall a, buildMockStructName "" a <> a).
Proof.
  assert (Hdefault : forall a,
             buildMockStructName "" a = (a ++ "Mock")%string).
  { intros a. unfold buildMockStructName. simpl String.eqb. cbv iota.
    apply (verb_s laws "" "Mock"); reflexivity. }
  split; [|split].
  - intros pre post a b Hpre Hpost. unfold buildMockStructName.
    replace (String.eqb (pre ++ "%s" ++ post) "") with false by (now destruct pre).
    rewrite !(verb_s laws) by assumption.
    intros H. apply append_inv_head in H. now apply append_inv_tail in H.
  - intros a b. rewrite !Hdefault. apply append_inv_tail.
  - intros a. rewrite Hdefault. intros H.
    apply (f_equal String.length) in H. rewrite length_append_string in H.
    simpl in H. lia.
Qed.

End Naming.

Lemma extraction_variables_distinct_witness :
  exists body,
    bodyOf (generateMethod Model.stringsvcParams "Users" "UsersMock" Model.Find)
      = Some body
    /\ NoDup (varNames body)
    /\ length (varNames body) = 2.
Proof.
  apply (@extraction_variables_distinct Model.imports sprintf_laws
           Model.stringsvcParams "Users" "UsersMock" Model.Find).
Defined.

Lemma generateMethod_receiver_and_name_witness :
  receiverOf (generateMethod Model.stringsvcParams "StringService"
                             "StringServiceMock" Model.Concat)
  = Some ("_m", "*StringServiceMock")
  /\ methodNameOf (generateMethod Model.stringsvcParams "StringService"
                                  "StringServiceMock" Model.Concat)
     = Some "Concat".
Proof.
  apply (@generateMethod_receiver_and_name Model.imports sprintf_laws
           Model.stringsvcParams "StringService" "StringServiceMock" Model.Concat).
Defined.

Lemma buildMockStructName_injective_witness :
  buildMockStructName (I := Model.imports) "" "Reader"
  <> buildMockStructName (I := Model.imports) "" "Writer"
  /\ buildMockStructName (I := Model.imports) "" "Reader" <> "Reader".
Proof.
  destruct (@buildMockStructName_injective Model.imports sprintf_laws)
    as (_ & Hinj & Hfresh).
  split; [|apply Hfresh].
  intros H. apply Hinj in H. discriminate H.
Defined.

(** ** The error slot *)

Lemma existsb_mentions_map {A : Type} (name : string) (f : A -> Code) (l : list A) :
  (forall a, In a l -> mentions name (f a) = false) ->
  existsb (mentions name) (map f l) = false.
Proof.
  induction l as [|a l IH]; intros H; [reflexivity|].
  simpl. rewrite (H a (or_introl eq_refl)). apply IH.
  intros b Hb. apply H. now right.
Qed.

Section ErrorSlot.
Context {I : Imports} (laws : SprintfLaws I).

(** X11: the error slot is read for error results only.  When the result
    at position i is not of error kind, and neither an argument name nor
    the rendering of a type involved is the identifier ret.Error, that
    identifier occurs nowhere in the if/else generated for the result. *)
Theorem non_error_result_never_reads_error_slot
    (params : generatorParams) (interfaceName mockStructName : string)
    (method : FunctionT.t GoType) (i : nat) (r : VariableT.t GoType) :
  nth_error method.(FunctionT.Results) i = Some r ->
  IsErrorType r.(VariableT.Type_) = false ->
  (forall a, In a method.(FunctionT.Args) ->
     String.eqb a.(VariableT.Name) "ret.Error" = false
     /\ existsb (mentions "ret.Error") (typeQual params a.(VariableT.Type_)) = false) ->
  existsb (mentions "ret.Error") (typeQual params r.(VariableT.Type_)) = false ->
  exists body item,
    bodyOf (generateMethod params interfaceName mockStructName method) = Some body
    /\ nth_error body (2 * i + 2) = Some item
    /\ mentions "ret.Error" item = false.
Proof.
  intros Hr He Hargs Hres.
  destruct (result_item_at params method interfaceName mockStructName i Hr)
    as (body & item & Hb & _ & Hi & _).
  exists body, item. split; [exact Hb|]. split; [exact Hi|].
  rewrite generateMethod_body in Hb. injection Hb as <-.
  destruct (nth_resultItems params method
              [returnOf (map retName (seq 0 (length method.(FunctionT.Results))))]
              _ i 0 Hr) as [_ Hitem].
  replace (2 * i + 2) with (S (2 * i + 1)) in Hi by lia.
  cbn [nth_error] in Hi. rewrite Hitem in Hi. injection Hi as <-.
  assert (Hnames : existsb (mentions "ret.Error") (argumentNames method) = false).
  { apply existsb_mentions_map. intros a Ha. simpl.
    destruct (Hargs a Ha) as [-> _]. reflexivity. }
  assert (Htypes : existsb (mentions "ret.Error")
                     (map (fun a => Stmt [Stmt (typeQual params a.(VariableT.Type_))])
                          method.(FunctionT.Args)) = false).
  { apply existsb_mentions_map. intros a Ha. simpl.
    destruct (Hargs a Ha) as [_ ->]. reflexivity. }
  pose proof (retName_not_error_slot laws i) as Hname.
  unfold resultItem, overrideCheck, overrideCall, overrideType, valueSlot,
    classifiedExtraction.
  rewrite He.
  destruct (IsNillableType (VariableT.Type_ r));
    unfold guardedConversion, conversion, valueSlot; simpl;
    rewrite ?Hname, ?Hnames, ?Htypes, ?Hres; reflexivity.
Qed.

End ErrorSlot.

Lemma non_error_result_never_reads_error_slot_witness :
  exists body item,
    bodyOf (generateMethod Model.stringsvcParams "Users" "UsersMock" Model.Find)
      = Some body
    /\ nth_error body 2 = Some item
    /\ mentions "ret.Error" item = false.
Proof.
  apply (@non_error_result_never_reads_error_slot Model.imports sprintf_laws
           Model.stringsvcParams "Users" "UsersMock" Model.Find 0
           (VariableT.mk "user" (Model.Pointer (Model.Named "users" "User"))));
    try reflexivity.
  intros a [<- | []]. split; reflexivity.
Defined.

(** ** The unit as a whole *)

Lemma Forall2_map_right {A B : Type} (P : A -> B -> Prop) (f : A -> B) (l : list A) :
  (forall a, In a l -> P a (f a)) -> Forall2 P l (map f l).
Proof.
  induction l as [|a l IH]; intros H; simpl; constructor.
  - apply H. now left.
  - apply IH. intros b Hb. apply H. now right.
Qed.

Section Unit.
Context {I : Imports} (laws : SprintfLaws I).

(** X6: the declarations Generate emits fit together.  The first item
    declares the type under the mock type name, and the items after it
    match the methods of the interface one to one and in order: each
    declares a method of that name on the receiver _m of type pointer to
    that same mock type. *)
Theorem Generate_methods_declared_on_mock_type
    (m : mockGenerator Logger) (p : GenerateParams GoType)
    (params : generatorParams) (iface : InterfaceT.t GoType) :
  Unmarshal p.(Params_) = inr params ->
  FindInterface p.(File_) params.(InterfaceName) = Some iface ->
  let name := buildMockStructName params.(MockStructNameTemplate)
                                  iface.(InterfaceT.Name) in
  exists unit_ outputPath typeItem methodItems typeDecl,
    Generate m p
    = Returned {| Files := [
        {| Path := outputPath;
           Content := GoString (AddDefaultPackageComment unit_
                                  pluginRepoURL pluginVersion) |} ] |}
    /\ unit_.(path) = params.(TargetPackagePath)
    /\ unit_.(items) = typeItem :: methodItems
    /\ declOf typeItem = Some typeDecl
    /\ declaredTypeOf typeDecl = Some name
    /\ Forall2 (fun method item =>
                  exists decl,
                    declOf item = Some decl
                    /\ receiverOf decl = Some ("_m", ("*" ++ name)%string)
                    /\ methodNameOf decl = Some method.(FunctionT.Name))
               iface.(InterfaceT.Methods) methodItems.
Proof.
  intros Hdecode Hfound name.
  do 5 eexists. split; [apply (Generate_returns m p Hdecode Hfound)|].
  split; [reflexivity|]. split; [reflexivity|]. split; [reflexivity|].
  split; [reflexivity|].
  apply Forall2_map_right. intros method _. eexists. split; [reflexivity|].
  apply (receiver_and_name_of_generated_method laws).
Qed.

(** X8: the generated text does not depend on the output path template.
    Two invocations on the same file whose parameters agree on the
    interface name, the two package paths and the mock name template end
    the same way, and when they return, they return the same content. *)
Theorem Generate_content_independent_of_output_path
    (m1 m2 : mockGenerator Logger) (p1 p2 : GenerateParams GoType)
    (params1 params2 : generatorParams) :
  p1.(File_) = p2.(File_) ->
  Unmarshal p1.(Params_) = inr params1 ->
  Unmarshal p2.(Params_) = inr params2 ->
  params1.(InterfaceName) = params2.(InterfaceName) ->
  params1.(SourcePackagePath) = params2.(SourcePackagePath) ->
  params1.(TargetPackagePath) = params2.(TargetPackagePath) ->
  params1.(MockStructNameTemplate) = params2.(MockStructNameTemplate) ->
  match Generate m1 p1, Generate m2 p2 with
  | Returned result1, Returned result2 =>
      map Content result1.(Files) = map Content result2.(Files)
  | Panicked, Panicked => True
  | _, _ => False
  end.
Proof.
  intros Hfile Hd1 Hd2 Hname Hsource Htarget Htemplate.
  unfold Generate. rewrite Hd1, Hd2, Hfile.
  destruct params1 as [n1 o1 s1 t1 k1], params2 as [n2 o2 s2 t2 k2].
  simpl in Hname, Hsource, Htarget, Htemplate. subst n2 s2 t2 k2. simpl.
  destruct (FindInterface (File_ p2) n1); [reflexivity | exact Logic.I].
Qed.

End Unit.

Section TypeConsistency.
Context {I : Imports}.

(** X9: one rendering of a type serves every place the type appears.  For
    the result at position i, the type T written in the result list of the
    signature is the type of the declaration [var ri T], the result type
    of the function type the override check tests against and, unless the
    result is of error kind, the type the value slot is converted to;
    the parameter types of that function type are the types written in the
    parameter list of the signature, in order. *)
Theorem result_type_rendered_consistently
    (params : generatorParams) (interfaceName mockStructName : string)
    (method : FunctionT.t GoType) (i : nat) (r : VariableT.t GoType) :
  nth_error method.(FunctionT.Results) i = Some r ->
  exists T argTypes args results body item parts,
    signatureOf (generateMethod params interfaceName mockStructName method)
      = Some (args, results)
    /\ bodyOf (generateMethod params interfaceName mockStructName method) = Some body
    /\ args = map (fun at_ => Stmt [Ident (fst at_); Stmt (snd at_)]) argTypes
    /\ nth_error results i = Some (Stmt [Ident r.(VariableT.Name); Stmt T])
    /\ nth_error body (2 * i + 1) = Some (Stmt [Keyword "var"; Ident (retName i); Stmt T])
    /\ nth_error body (2 * i + 2) = Some item
    /\ ifElseOf item = Some parts
    /\ parts.(conditions)
       = [Stmt [Group GList [Stmt [Ident "rf"];
                             Stmt [Ident "ok"; Operator ":="; Ident "ret.Get";
                                   Group GCall [Stmt [Literal (VInt (Z.of_nat i))]]]];
                Group GAssert [Stmt [Keyword "func";
                                     Group GParams
                                       (map (fun at_ => Stmt [Stmt (snd at_)]) argTypes);
                                     Stmt T]]];
          Stmt [Ident "ok"]]
    /\ (IsErrorType r.(VariableT.Type_) = false ->
        let convert :=
          [Ident (retName i); Operator "="; Ident "ret.Get";
           Group GParams [Stmt [Literal (VInt (Z.of_nat i))]];
           Group GAssert [Stmt T]] in
        parts.(elseBlock) = [Stmt convert]
        \/ exists guard, parts.(elseBlock)
                         = [Stmt [Group GIf guard; Group GBlock [Stmt [Stmt convert]]]]).
Proof.
  intros Hr.
  destruct (result_item_at params method interfaceName mockStructName i Hr)
    as (body & item & Hb & Hv & Hi & Hparts).
  exists (typeQual params r.(VariableT.Type_)).
  exists (map (fun a => (a.(VariableT.Name), typeQual params a.(VariableT.Type_)))
              method.(FunctionT.Args)).
  do 2 eexists. exists body, item. eexists.
  split; [apply signatureOf_generateMethod|]. split; [exact Hb|].
  split; [now rewrite map_map|].
  split; [apply (map_nth_error
                   (fun v => Stmt [Ident v.(VariableT.Name);
                                   Stmt (typeQual params v.(VariableT.Type_))]) _ _ Hr)|].
  split; [exact Hv|]. split; [exact Hi|]. split; [exact Hparts|].
  split.
  - simpl. unfold overrideCheck, overrideType, valueSlot. now rewrite map_map.
  - intros He convert. simpl. unfold classifiedExtraction. rewrite He.
    destruct (IsNillableType (VariableT.Type_ r)).
    + right. eexists. reflexivity.
    + left. reflexivity.
Qed.

End TypeConsistency.

Lemma result_type_rendered_consistently_witness :
  exists T (results body : Items),
    nth_error results 0 = Some (Stmt [Ident "user"; Stmt T])
    /\ nth_error body 1 = Some (Stmt [Keyword "var"; Ident (retName 0); Stmt T])
    /\ T = [Operator "*"; Qualified "users" "User"].
Proof.
  destruct (@result_type_rendered_consistently Model.imports
              Model.stringsvcParams "Users" "UsersMock" Model.Find 0
              (VariableT.mk "user" (Model.Pointer (Model.Named "users" "User")))
              eq_refl)
    as (T & argTypes & args & results & body & item & parts
        & Hs & Hb & _ & Hres & Hvar & _).
  exists T, results, body. split; [exact Hres|]. split; [exact Hvar|].
  rewrite signatureOf_generateMethod in Hs. injection Hs as _ <-.
  simpl in Hres. now injection Hres as <-.
Defined.

Lemma Generate_methods_declared_on_mock_type_witness :
  exists unit_ outputPath typeItem methodItems typeDecl,
    Generate Model.theGenerator
      {| File_ := Model.stringsvc; Params_ := Model.marshal Model.stringsvcParams |}
    = Returned {| Files := [
        {| Path := outputPath;
           Content := GoString (AddDefaultPackageComment unit_
                                  pluginRepoURL pluginVersion) |} ] |}
    /\ unit_.(items) = typeItem :: methodItems
    /\ declOf typeItem = Some typeDecl
    /\ declaredTypeOf typeDecl = Some "StringServiceMock"
    /\ Forall2 (fun method item =>
                  exists decl,
                    declOf item = Some decl
                    /\ receiverOf decl = Some ("_m", "*StringServiceMock")
                    /\ methodNameOf decl = Some method.(FunctionT.Name))
               [Model.Concat] methodItems.
Proof.
  destruct (@Generate_methods_declared_on_mock_type Model.imports sprintf_laws
              Model.theGenerator
              {| File_ := Model.stringsvc;
                 Params_ := Model.marshal Model.stringsvcParams |}
              Model.stringsvcParams Model.StringService eq_refl eq_refl)
    as (unit_ & outputPath & typeItem & methodItems & typeDecl
        & Hgen & _ & Hitems & Hdecl & Htype & Hmethods).
  exists unit_, outputPath, typeItem, methodItems, typeDecl.
  split; [exact Hgen|]. split; [exact Hitems|]. split; [exact Hdecl|].
  split; [exact Htype | exact Hmethods].
Defined.

Lemma Generate_content_independent_of_output_path_witness :
  match
    Generate Model.theGenerator
      {| File_ := Model.stringsvc; Params_ := Model.marshal Model.stringsvcParams |},
    Generate Model.theGenerator
      {| File_ := Model.stringsvc;
         Params_ := Model.marshal
           {| InterfaceName := "StringService";
              OutPathTemplate := "./mocks/%s.go";
              SourcePackagePath := "stringsvc";
              TargetPackagePath := "stringsvc";
              MockStructNameTemplate := "" |} |}
  with
  | Returned result1, Returned result2 =>
      map Content result1.(Files) = map Content result2.(Files)
  | Panicked, Panicked => True
  | _, _ => False
  end.
Proof.
  apply (@Generate_content_independent_of_output_path Model.imports
           Model.theGenerator Model.theGenerator
           {| File_ := Model.stringsvc;
              Params_ := Model.marshal Model.stringsvcParams |}
           {| File_ := Model.stringsvc;
              Params_ := Model.marshal
                {| InterfaceName := "StringService";
                   OutPathTemplate := "./mocks/%s.go";
                   SourcePackagePath := "stringsvc";
                   TargetPackagePath := "stringsvc";
                   MockStructNameTemplate := "" |} |}
           Model.stringsvcParams
           {| InterfaceName := "StringService";
              OutPathTemplate := "./mocks/%s.go";
              SourcePackagePath := "stringsvc";
              TargetPackagePath := "stringsvc";
              MockStructNameTemplate := "" |});
    reflexivity.
Defined.

(** ** Guarded and unguarded conversion, by the shape of the result type *)
Section Shapes.
Variables (sprintf_ : string -> list Value -> string)
          (render_ : string -> string -> Model.TypeDescriptor -> Statement).

(** C3: over the type descriptions and the classification of the
    specification, whatever fmt.Sprintf and the renderer are.  For a result
    whose type is not the error type, the extraction in the else branch
    converts the generic value slot to the rendered result type; when the
    type is a pointer, a slice, a map, a channel, an interface or a
    function, the conversion stands inside [if ret.Get(i) != nil { ... }];
    for every other shape (a named type, an array, a variadic, a builtin)
    it stands alone, without any guard. *)
Theorem nillable_shapes_guarded_other_shapes_converted
    (params : generatorParams) (interfaceName mockStructName : string)
    (method : FunctionT.t Model.TypeDescriptor) (i : nat)
    (r : VariableT.t Model.TypeDescriptor) :
  nth_error method.(FunctionT.Results) i = Some r ->
  r.(VariableT.Type_) <> Model.Builtin "error" ->
  let convert :=
    [Ident (sprintf_ "r%d" [VInt (Z.of_nat i)]); Operator "="; Ident "ret.Get";
     Group GParams [Stmt [Literal (VInt (Z.of_nat i))]];
     Group GAssert [Stmt (render_ params.(SourcePackagePath)
                                  params.(TargetPackagePath)
                                  r.(VariableT.Type_))]] in
  let guarded :=
    [Group GIf [Stmt [Ident "ret.Get";
                      Group GParams [Stmt [Literal (VInt (Z.of_nat i))]];
                      Operator "!="; Ident "nil"]];
     Group GBlock [Stmt [Stmt convert]]] in
  exists body item parts,
    bodyOf (generateMethod (I := Model.importsOver sprintf_ render_)
              params interfaceName mockStructName method) = Some body
    /\ nth_error body (2 * i + 2) = Some item
    /\ ifElseOf item = Some parts
    /\ match r.(VariableT.Type_) with
       | Model.Pointer _ | Model.Slice _ | Model.Map _ _ | Model.Channel _ _
       | Model.InterfaceT | Model.FuncT _ _ =>
           parts.(elseBlock) = [Stmt guarded]
       | Model.Named _ _ | Model.Array _ _ | Model.Variadic _ | Model.Builtin _ =>
           parts.(elseBlock) = [Stmt convert]
       end.
Proof.
  intros Hr Hnot convert guarded.
  destruct (result_item_at (I := Model.importsOver sprintf_ render_)
              params method interfaceName mockStructName i Hr)
    as (body & item & Hb & _ & Hi & Hparts).
  eexists body, item, _. split; [exact Hb|]. split; [exact Hi|].
  split; [exact Hparts|].
  cbn [elseBlock].
  unfold classifiedExtraction, guarded, convert, guardedConversion, conversion,
    valueSlot, retName, typeQual.
  cbn [IsErrorType IsNillableType Sprintf TypeQual Model.importsOver app].
  clear Hr Hparts. destruct r as [resultName resultType].
  cbn [VariableT.Type_] in *.
  destruct resultType as [| | | | | | | | |identifier];
    cbn [Model.isErrorKind Model.isNillableKind]; try reflexivity.
  destruct (String.eqb identifier "error") eqn:Eerror; [|reflexivity].
  apply String.eqb_eq in Eerror. subst identifier. now destruct Hnot.
Qed.

End Shapes.

Lemma nillable_shapes_guarded_other_shapes_converted_witness :
  (exists body item parts,
      bodyOf (generateMethod Model.journalParams "Journal" "JournalMock"
                             Model.Snapshot) = Some body
      /\ nth_error body 2 = Some item
      /\ ifElseOf item = Some parts
      /\ parts.(elseBlock)
         = [Stmt [Group GIf [Stmt [Ident "ret.Get";
                                   Group GParams [Stmt [Literal (VInt 0)]];
                                   Operator "!="; Ident "nil"]];
                  Group GBlock [Stmt [Stmt
                    [Ident "r0"; Operator "="; Ident "ret.Get";
                     Group GParams [Stmt [Literal (VInt 0)]];
                     Group GAssert [Stmt [Operator "[]"; Ident "byte"]]]]]]])
  /\ (exists body item parts,
         bodyOf (generateMethod Model.journalParams "Journal" "JournalMock"
                                Model.Snapshot) = Some body
         /\ nth_error body 4 = Some item
         /\ ifElseOf item = Some parts
         /\ parts.(elseBlock)
            = [Stmt [Ident "r1"; Operator "="; Ident "ret.Get";
                     Group GParams [Stmt [Literal (VInt 1)]];
                     Group GAssert [Stmt [Operator "["; Literal (VInt 4);
                                          Operator "]"; Ident "int"]]]]).
Proof.
  split.
  - apply (@nillable_shapes_guarded_other_shapes_converted
             Model.sprintf Model.render Model.journalParams "Journal" "JournalMock"
             Model.Snapshot 0
             (VariableT.mk "data" (Model.Slice (Model.Builtin "byte"))));
      [reflexivity | discriminate].
  - apply (@nillable_shapes_guarded_other_shapes_converted
             Model.sprintf Model.render Model.journalParams "Journal" "JournalMock"
             Model.Snapshot 1
             (VariableT.mk "sizes" (Model.Array 4 (Model.Builtin "int"))));
      [reflexivity | discriminate].
Defined.

(** ** The emitted unit, item by item *)
Section EmittedUnit.
Context {I : Imports}.

Lemma methodNameOf_generateMethod (params : generatorParams)
    (interfaceName mockStructName : string) (method : FunctionT.t GoType) :
  methodNameOf (generateMethod params interfaceName mockStructName method)
  = Some method.(FunctionT.Name).
Proof. reflexivity. Qed.

Lemma methodNamesOf_methods (params : generatorParams)
    (interfaceName mockStructName : string) (methods : list (FunctionT.t GoType)) :
  methodNamesOf (map (fun method =>
                        fileItem (generateMethod params interfaceName
                                                 mockStructName method))
                     methods)
  = map (@FunctionT.Name GoType) methods.
Proof.
  induction methods as [|method methods IH]; [reflexivity|].
  simpl map.
  change (methodNamesOf (fileItem (generateMethod params interfaceName
                                     mockStructName method) :: ?rest))
    with (FunctionT.Name method :: methodNamesOf rest).
  now rewrite IH.
Qed.

(** C5: the unit Generate emits is the declaration of the mock type
    followed by one method declaration per method of the interface, and
    nothing else.  The first item declares the type under the mock type
    name, as a struct whose only field is the embedded mock.Mock.  The
    items after it correspond to the methods of the descriptor one to one
    and in the descriptor's order: item k is the declaration generated for
    method k, it declares a method of that method's name, with that
    method's parameters by name, as many results as the method has and a
    body of two items plus two per result.  So the names of the methods
    declared by the unit, read in order, are the names of the descriptor's
    methods, repeated entries included; with no methods the unit is the
    type declaration alone. *)
Theorem Generate_unit_is_type_then_each_method_in_order
    (m : mockGenerator Logger) (p : GenerateParams GoType)
    (params : generatorParams) (iface : InterfaceT.t GoType) :
  Unmarshal p.(Params_) = inr params ->
  FindInterface p.(File_) params.(InterfaceName) = Some iface ->
  let name := buildMockStructName params.(MockStructNameTemplate)
                                  iface.(InterfaceT.Name) in
  exists unit_ outputPath typeItem methodItems typeDecl,
    Generate m p
    = Returned {| Files := [
        {| Path := outputPath;
           Content := GoString (AddDefaultPackageComment unit_
                                  pluginRepoURL pluginVersion) |} ] |}
    /\ unit_.(items) = typeItem :: methodItems
    /\ declOf typeItem = Some typeDecl
    /\ declaredTypeOf typeDecl = Some name
    /\ embeddedOf typeDecl = Some [Stmt [Qualified mockPackage "Mock"]]
    /\ methodNameOf typeDecl = None
    /\ length methodItems = length iface.(InterfaceT.Methods)
    /\ Forall2 (fun method item =>
                  item = fileItem (generateMethod params iface.(InterfaceT.Name)
                                                  name method)
                  /\ exists decl args results body,
                       declOf item = Some decl
                       /\ declaredTypeOf decl = None
                       /\ methodNameOf decl = Some method.(FunctionT.Name)
                       /\ signatureOf decl = Some (args, results)
                       /\ declaredNames args
                          = map (@VariableT.Name GoType) method.(FunctionT.Args)
                       /\ length results = length method.(FunctionT.Results)
                       /\ bodyOf decl = Some body
                       /\ length body = 2 * length method.(FunctionT.Results) + 2)
               iface.(InterfaceT.Methods) methodItems
    /\ methodNamesOf unit_.(items) = map (@FunctionT.Name GoType) iface.(InterfaceT.Methods)
    /\ (iface.(InterfaceT.Methods) = [] -> unit_.(items) = [typeItem]).
Proof.
  intros Hdecode Hfound name.
  do 5 eexists. split; [apply (Generate_returns m p Hdecode Hfound)|].
  cbn [items].
  split; [reflexivity|]. split; [reflexivity|]. split; [reflexivity|].
  split; [reflexivity|]. split; [reflexivity|].
  split; [apply length_map|].
  split; [|split].
  - apply Forall2_map_right. intros method _. split; [reflexivity|].
    do 4 eexists.
    split; [reflexivity|]. split; [reflexivity|].
    split; [apply methodNameOf_generateMethod|].
    split; [apply signatureOf_generateMethod|].
    split; [apply (declaredNames_map
                     (fun a => [Stmt (typeQual params a.(VariableT.Type_))]))|].
    split; [apply length_map|].
    split; [apply generateMethod_body|].
    simpl length. rewrite length_app, length_resultItems. simpl. lia.
  - change (methodNamesOf (fileItem (generateType name iface.(InterfaceT.Name))
                           :: ?rest))
      with (methodNamesOf rest).
    apply methodNamesOf_methods.
  - intros ->. reflexivity.
Qed.

(** X12: Generate uses the file only to look the interface up, and the
    parameter blob only through its decoding.  Two invocations, on any two
    generators, whose blobs decode alike and whose files give the same
    answer for the decoded interface name end the same way and return the
    same path and content, whatever else the two files and blobs hold. *)
Theorem Generate_depends_on_decoded_params_and_found_interface
    (m1 m2 : mockGenerator Logger) (p1 p2 : GenerateParams GoType) :
  Unmarshal p1.(Params_) = Unmarshal p2.(Params_) ->
  (forall params,
      Unmarshal p1.(Params_) = inr params ->
      FindInterface p1.(File_) params.(InterfaceName)
      = FindInterface p2.(File_) params.(InterfaceName)) ->
  Generate m1 p1 = Generate m2 p2.
Proof.
  intros Hdecode Hfound. unfold Generate. rewrite <- Hdecode.
  destruct (Unmarshal (Params_ p1)) as [e|params]; [reflexivity|].
  now rewrite (Hfound params eq_refl).
Qed.

End EmittedUnit.

Lemma Generate_unit_is_type_then_each_method_in_order_witness :
  exists unit_ outputPath typeItem methodItems typeDecl,
    Generate Model.theGenerator
      {| File_ := Model.journal; Params_ := Model.marshal Model.journalParams |}
    = Returned {| Files := [
        {| Path := outputPath;
           Content := GoString (AddDefaultPackageComment unit_
                                  pluginRepoURL pluginVersion) |} ] |}
    /\ unit_.(items) = typeItem :: methodItems
    /\ declOf typeItem = Some typeDecl
    /\ declaredTypeOf typeDecl = Some "JournalMock"
    /\ length methodItems = 4
    /\ methodNamesOf unit_.(items) = ["Reset"; "Concat"; "Find"; "Concat"].
Proof.
  destruct (@Generate_unit_is_type_then_each_method_in_order Model.imports
              Model.theGenerator
              {| File_ := Model.journal;
                 Params_ := Model.marshal Model.journalParams |}
              Model.journalParams Model.Journal eq_refl eq_refl)
    as (unit_ & outputPath & typeItem & methodItems & typeDecl
        & Hgen & Hitems & Hdecl & Htype & _ & _ & Hlen & _ & Hnames & _).
  exists unit_, outputPath, typeItem, methodItems, typeDecl.
  split; [exact Hgen|]. split; [exact Hitems|]. split; [exact Hdecl|].
  split; [exact Htype|]. split; [exact Hlen | exact Hnames].
Defined.

Lemma Generate_depends_on_decoded_params_and_found_interface_witness :
  Generate Model.theGenerator
    {| File_ := Model.stringsvc; Params_ := Model.marshal Model.stringsvcParams |}
  = Generate Model.anotherGenerator
      {| File_ := Model.journal; Params_ := Model.marshal Model.stringsvcParams |}.
Proof.
  apply (@Generate_depends_on_decoded_params_and_found_interface Model.imports
           Model.theGenerator Model.anotherGenerator
           {| File_ := Model.stringsvc;
              Params_ := Model.marshal Model.stringsvcParams |}
           {| File_ := Model.journal;
              Params_ := Model.marshal Model.stringsvcParams |}).
  - reflexivity.
  - intros params Hparams. injection Hparams as <-. reflexivity.
Defined.
